(** * ePDG: database handles and logging facade

    A shallow embedding of the three Go sources of the repository

      - [database/mysql.go]   (pooled MySQL handle, [MySqlDB]),
      - the SQLite handle     ([SQLiteDB], one connection behind a mutex),
      - [logger/zap.go]       (process-wide zap logger),

    together with the properties of their specification.

    The Go packages the program calls ([database/sql], [sync], [fmt],
    [errors], [os], [zap]) are not part of the repository.  Calls into
    [database/sql] and [os] are kept as events answered by an arbitrary
    environment; the few pure library functions the program relies on
    ([fmt.Sprintf], [fmt.Errorf], [errors.New], [zapcore.Level.Enabled]) are
    written out for the fragment the program uses. *)

From Stdlib Require Import ZArith String Ascii List Lia DecimalString.
From stdpp Require Import base option list gmap strings.

Local Open Scope Z_scope.
Local Open Scope string_scope.

(** ** Go values shared by the three files *)

Module Go.

(** The [error] interface, restricted to the two implementations the program
    creates: [errors.New(s)] and [fmt.Errorf("...%w", err)]. *)
Inductive error : Type :=
| errorString (s : string)
| wrapError (msg : string) (err : error).

Definition Error (e : error) : string :=
  match e with
  | errorString s => s
  | wrapError msg _ => msg
  end.

Definition Unwrap (e : error) : option error :=
  match e with
  | errorString _ => None
  | wrapError _ err => Some err
  end.

Definition errors_New (text : string) : error := errorString text.

(** Operands of the formatting functions. *)
Inductive operand : Type :=
| OString (s : string)
| OInt (n : Z)
| OError (e : error).

(** [%d] of a Go [int]: decimal digits, with a leading [-] when negative. *)
Definition decimal (n : Z) : string := NilZero.string_of_int (Z.to_int n).

Definition type_name (o : operand) : string :=
  match o with
  | OString _ => "string"
  | OInt _ => "int"
  | OError _ => "error"
  end.

Definition plain (o : operand) : string :=
  match o with
  | OString s => s
  | OInt n => decimal n
  | OError e => Error e
  end.

(** One verb applied to one operand.  The verbs of the program are [%s] on
    strings, [%d] on ints and [%w] on errors; a verb that does not fit its
    operand prints Go's [%!verb(type=value)] marker. *)
Definition format_verb (verb : ascii) (o : operand) : string :=
  match verb, o with
  | "s"%char, OString s => s
  | "s"%char, OError e => Error e
  | "v"%char, _ => plain o
  | "d"%char, OInt n => decimal n
  | "w"%char, OError e => Error e
  | _, _ => "%!" +:+ String verb ("(" +:+ type_name o +:+ "=" +:+ plain o +:+ ")")
  end.

(** [fmt.Sprintf]: the format is scanned left to right, every verb consumes
    the next operand, [%%] prints a percent sign. *)
Fixpoint Sprintf (format : string) (a : list operand) : string :=
  match format with
  | EmptyString => EmptyString
  | String "%" (String verb rest) =>
      if Ascii.eqb verb "%" then String "%" (Sprintf rest a)
      else match a with
           | o :: a' => format_verb verb o +:+ Sprintf rest a'
           | [] => "%!" +:+ String verb ("(MISSING)" +:+ Sprintf rest [])
           end
  | String c rest => String c (Sprintf rest a)
  end.

(** The operand of the first [%w] verb, which [fmt.Errorf] wraps. *)
Fixpoint wrapped (format : string) (a : list operand) : option error :=
  match format with
  | EmptyString => None
  | String "%" (String verb rest) =>
      if Ascii.eqb verb "%" then wrapped rest a
      else match a with
           | OError e :: a' => if Ascii.eqb verb "w" then Some e else wrapped rest a'
           | _ :: a' => wrapped rest a'
           | [] => None
           end
  | String _ rest => wrapped rest a
  end.

(** [fmt.Errorf]: the message is the formatted text; with a [%w] verb the
    result unwraps to that operand. *)
Definition Errorf (format : string) (a : list operand) : error :=
  match wrapped format a with
  | Some e => wrapError (Sprintf format a) e
  | None => errorString (Sprintf format a)
  end.

(** [time.Hour], in nanoseconds. *)
Definition time_Hour : Z := 3600 * 1000000000.

End Go.

Import Go.

(** ** The [database] package *)

Module database.

(** *** Values of [database/sql] and [context] *)

(** A [*sql.DB]: an opaque reference handed out by [sql.Open]. *)
Definition DB := nat.

(** Statement arguments ([...interface{}]). *)
Inductive value : Type :=
| VNil
| VInt (n : Z)
| VString (s : string)
| VBool (b : bool).

Inductive Context : Type :=
| Background
| WithCancel (id : nat).

Record TxOptions : Type := { Isolation : Z; ReadOnly : bool }.

(** [sql.Result]: both accessors return a Go pair [(int64, error)]. *)
Record Result : Type :=
  { LastInsertId : Z * option error;
    RowsAffected : Z * option error }.

Inductive Rows : Type := mkRows (id : nat).
Inductive Row : Type := mkRow (id : nat).
Inductive Tx : Type := mkTx (id : nat).
Inductive Stmt : Type := mkStmt (id : nat).

(** What a library function declared as [(T, error)] hands back: a value
    with a nil error, or an error. *)
Inductive ret (T : Type) : Type :=
| ok (t : T)
| fail (e : error).
Arguments ok {T} t.
Arguments fail {T} e.

(** The Go pair a wrapper passes on when it returns a library call as is. *)
Definition pair_of {T} (r : ret T) : option T * option error :=
  match r with
  | ok t => (Some t, None)
  | fail e => (None, Some e)
  end.

(** The functions of [database/sql] the two handles call, indexed by what
    they return. *)
Inductive DBcall : Type -> Type :=
| sql_Open (driverName dataSourceName : string) : DBcall (ret DB)
| SetMaxOpenConns (db : DB) (n : Z) : DBcall unit
| SetMaxIdleConns (db : DB) (n : Z) : DBcall unit
| SetConnMaxLifetime (db : DB) (d : Z) : DBcall unit
| DB_Ping (db : DB) : DBcall (option error)
| DB_PingContext (db : DB) (ctx : Context) : DBcall (option error)
| DB_Exec (db : DB) (query : string) (args : list value) : DBcall (ret Result)
| DB_ExecContext (db : DB) (ctx : Context) (query : string) (args : list value) : DBcall (ret Result)
| DB_Query (db : DB) (query : string) (args : list value) : DBcall (ret Rows)
| DB_QueryContext (db : DB) (ctx : Context) (query : string) (args : list value) : DBcall (ret Rows)
| DB_QueryRow (db : DB) (query : string) (args : list value) : DBcall Row
| DB_QueryRowContext (db : DB) (ctx : Context) (query : string) (args : list value) : DBcall Row
| DB_Begin (db : DB) : DBcall (ret Tx)
| DB_BeginTx (db : DB) (ctx : Context) (opts : option TxOptions) : DBcall (ret Tx)
| DB_Prepare (db : DB) (query : string) : DBcall (ret Stmt)
| DB_Close (db : DB) : DBcall (option error).

(** A completed library call with its answer. *)
Inductive event : Type :=
| Ev {R : Type} (c : DBcall R) (r : R).

(** The library and the database server behind it: any function from the
    calls completed so far and the next call to its answer. *)
Definition Env : Type := forall R : Type, list event -> DBcall R -> R.

(** *** The two handle types *)

(** A [*MySqlDB] or [*SQLiteDB]: an address in the store; an address that
    holds no object stands for a nil or dangling pointer. *)
Definition loc := nat.

(** The field of [MySqlDB] is [db] in the source; it is [my_db] here because
    [SQLiteDB] of the same package has a field of that name. *)
Record MySqlDB : Type := { my_db : option DB }.

Record SQLiteDB : Type :=
  { db : option DB;
    path : string;
    mu : bool  (* sync.Mutex: [true] while locked *) }.

Record World : Type :=
  { trace : list event;
    mysqls : gmap loc MySqlDB;
    sqlites : gmap loc SQLiteDB }.

Definition log (e : event) (w : World) : World :=
  {| trace := trace w ++ [e]; mysqls := mysqls w; sqlites := sqlites w |}.

Definition put_mysql (m : loc) (v : MySqlDB) (w : World) : World :=
  {| trace := trace w; mysqls := <[m := v]> (mysqls w); sqlites := sqlites w |}.

Definition put_sqlite (s : loc) (v : SQLiteDB) (w : World) : World :=
  {| trace := trace w; mysqls := mysqls w; sqlites := <[s := v]> (sqlites w) |}.

Definition set_db (v : option DB) (o : SQLiteDB) : SQLiteDB :=
  {| db := v; path := path o; mu := mu o |}.

Definition set_mu (b : bool) (o : SQLiteDB) : SQLiteDB :=
  {| db := db o; path := path o; mu := b |}.

(** *** Programs *)

(** The atomic actions of the package: a library call, a field access
    through a handle, a mutex operation. *)
Inductive act : Type -> Type :=
| Call {R : Type} (c : DBcall R) : act R
| NewMySql (v : MySqlDB) : act loc          (* &MySqlDB{...} *)
| MyDb (m : loc) : act (option DB)           (* m.db *)
| NewSQLite (v : SQLiteDB) : act loc         (* &SQLiteDB{...} *)
| GetDb (s : loc) : act (option DB)          (* s.db *)
| SetDb (s : loc) (v : option DB) : act unit (* s.db = v *)
| Lock (s : loc) : act unit                  (* s.mu.Lock() *)
| Unlock (s : loc) : act unit.               (* s.mu.Unlock() *)

(** A function body: a tree of actions ending in a return or a panic. *)
Inductive prog (A : Type) : Type :=
| Ret (a : A)
| Panic (msg : string)
| Do {R : Type} (a : act R) (k : R -> prog A).
Arguments Ret {A} a.
Arguments Panic {A} msg.
Arguments Do {A R} a k.

Fixpoint bind {A B} (p : prog A) (f : A -> prog B) : prog B :=
  match p with
  | Ret a => f a
  | Panic msg => Panic msg
  | Do a k => Do a (fun r => bind (k r) f)
  end.

Definition perform {R} (a : act R) : prog R := Do a Ret.

Notation "x <- p ;; q" := (bind p (fun x => q))
  (at level 100, p at next level, right associativity).
Notation "p ;; q" := (bind p (fun _ => q))
  (at level 100, right associativity).

(** [defer d; body]: [d] runs when [body] returns and when it panics.  (An
    action of [body] itself faults only on a nil handle, and in this package
    every deferred call follows a [Lock] on the same handle, which has then
    faulted first.) *)
Fixpoint defer {A} (d : prog unit) (body : prog A) : prog A :=
  match body with
  | Ret a => d ;; Ret a
  | Panic msg => d ;; Panic msg
  | Do a k => Do a (fun r => defer d (k r))
  end.

(** [p.f(...)] on a pointer that may be nil. *)
Definition deref {A} (p : option DB) (k : DB -> prog A) : prog A :=
  match p with
  | Some d => k d
  | None => Panic "invalid memory address or nil pointer dereference"
  end.

(** *** Running one action *)

Inductive result (R : Type) : Type :=
| Done (r : R) (w : World)
| Fault (msg : string)   (* the action panics *)
| Wait.                  (* the action cannot proceed yet *)
Arguments Done {R} r w.
Arguments Fault {R} msg.
Arguments Wait {R}.

Definition nil_deref : string := "invalid memory address or nil pointer dereference".

Section Semantics.

Variable env : Env.

Definition step {R} (a : act R) (w : World) : result R :=
  match a in act R return result R with
  | Call c => let r := env _ (trace w) c in Done r (log (Ev c r) w)
  | NewMySql v => let m := fresh (dom (mysqls w)) in Done m (put_mysql m v w)
  | MyDb m =>
      match mysqls w !! m with
      | Some o => Done (my_db o) w
      | None => Fault nil_deref
      end
  | NewSQLite v => let s := fresh (dom (sqlites w)) in Done s (put_sqlite s v w)
  | GetDb s =>
      match sqlites w !! s with
      | Some o => Done (db o) w
      | None => Fault nil_deref
      end
  | SetDb s v =>
      match sqlites w !! s with
      | Some o => Done tt (put_sqlite s (set_db v o) w)
      | None => Fault nil_deref
      end
  | Lock s =>
      match sqlites w !! s with
      | Some o => if mu o then Wait else Done tt (put_sqlite s (set_mu true o) w)
      | None => Fault nil_deref
      end
  | Unlock s =>
      match sqlites w !! s with
      | Some o =>
          if mu o then Done tt (put_sqlite s (set_mu false o) w)
          else Fault "sync: unlock of unlocked mutex"
      | None => Fault nil_deref
      end
  end.

(** A call run to its end by one goroutine alone. *)
Inductive outcome (A : Type) : Type :=
| Returned (a : A) (w : World)
| Panicked (msg : string) (w : World)
| Blocked (w : World).

Fixpoint run {A} (p : prog A) (w : World) : outcome A :=
  match p with
  | Ret a => Returned A a w
  | Panic msg => Panicked A msg w
  | Do a k =>
      match step a w with
      | Done r w' => run (k r) w'
      | Fault msg => Panicked A msg w
      | Wait => Blocked A w
      end
  end.

End Semantics.

Arguments Returned {A} a w.
Arguments Panicked {A} msg w.
Arguments Blocked {A} w.


(** *** mysql.go *)

Module mysql.

Record Config : Type :=
  { Username : string;
    Password : string;
    Host : string;
    Port : Z;
    Database : string;
    Charset : string }.

Definition charset (cfg : Config) : string :=
  if String.eqb (Charset cfg) "" then "utf8mb4" else Charset cfg.

Definition dsn (cfg : Config) : string :=
  Sprintf "%s:%s@tcp(%s:%d)/%s?charset=%s&parseTime=True&loc=Local"
    [OString (Username cfg); OString (Password cfg); OString (Host cfg);
     OInt (Port cfg); OString (Database cfg); OString (charset cfg)].

Definition NewMySqlDB (cfg : Config) : prog (option loc * option error) :=
  r <- perform (Call (sql_Open "mysql" (dsn cfg))) ;;
  match r with
  | fail err => Ret (None, Some (Errorf "error open database: %w" [OError err]))
  | ok db =>
      perform (Call (SetMaxOpenConns db 25)) ;;
      perform (Call (SetMaxIdleConns db 10)) ;;
      perform (Call (SetConnMaxLifetime db time_Hour)) ;;
      err <- perform (Call (DB_Ping db)) ;;
      match err with
      | Some err => Ret (None, Some (Errorf "error verify connect: %w" [OError err]))
      | None => m <- perform (NewMySql {| my_db := Some db |}) ;; Ret (Some m, None)
      end
  end.

Definition Close (m : loc) : prog (option error) :=
  d <- perform (MyDb m) ;;
  match d with
  | Some d => perform (Call (DB_Close d))
  | None => Ret None
  end.

Definition Ping (m : loc) (ctx : Context) : prog (option error) :=
  d <- perform (MyDb m) ;;
  deref d (fun d => perform (Call (DB_PingContext d ctx))).

Definition Exec (m : loc) (query : string) (args : list value) : prog (Z * option error) :=
  d <- perform (MyDb m) ;;
  deref d (fun d =>
    r <- perform (Call (DB_Exec d query args)) ;;
    match r with
    | fail err => Ret (0, Some (Errorf "error execute: %w" [OError err]))
    | ok result =>
        let (rowsAffected, err) := RowsAffected result in
        match err with
        | Some err => Ret (0, Some (Errorf "error fetch rows affected: %w" [OError err]))
        | None => Ret (rowsAffected, None)
        end
    end).

Definition Query (m : loc) (query : string) (args : list value) : prog (option Rows * option error) :=
  d <- perform (MyDb m) ;;
  deref d (fun d =>
    r <- perform (Call (DB_Query d query args)) ;;
    match r with
    | fail err => Ret (None, Some (Errorf "error query: %w" [OError err]))
    | ok rows => Ret (Some rows, None)
    end).

Definition QueryRow (m : loc) (query : string) (args : list value) : prog (option Row) :=
  d <- perform (MyDb m) ;;
  deref d (fun d => r <- perform (Call (DB_QueryRow d query args)) ;; Ret (Some r)).

Definition BeginTransaction (m : loc) : prog (option Tx * option error) :=
  d <- perform (MyDb m) ;;
  deref d (fun d =>
    r <- perform (Call (DB_Begin d)) ;;
    match r with
    | fail err => Ret (None, Some (Errorf "error begin transaction: %w" [OError err]))
    | ok t => Ret (Some t, None)
    end).

Definition Prepare (m : loc) (query : string) : prog (option Stmt * option error) :=
  d <- perform (MyDb m) ;;
  deref d (fun d =>
    r <- perform (Call (DB_Prepare d query)) ;;
    match r with
    | fail err => Ret (None, Some (Errorf "error prepare: %w" [OError err]))
    | ok st => Ret (Some st, None)
    end).

(** A configuration whose host does not answer. *)
Definition unreachable_cfg : Config :=
  {| Username := "epdg";
     Password := "secret";
     Host := "10.0.0.1";
     Port := 3306;
     Database := "epdg";
     Charset := "" |}.

End mysql.

(** *** The SQLite handle *)

Module sqlite.

Definition NewSQLiteDB (dbPath : string) : prog (option loc * option error) :=
  r <- perform (Call (sql_Open "sqlite" dbPath)) ;;
  match r with
  | fail err => Ret (None, Some (Errorf "failed to open database: %w" [OError err]))
  | ok db =>
      perform (Call (SetMaxOpenConns db 1)) ;;
      perform (Call (SetMaxIdleConns db 1)) ;;
      perform (Call (SetConnMaxLifetime db time_Hour)) ;;
      err <- perform (Call (DB_Ping db)) ;;
      match err with
      | Some err => Ret (None, Some (Errorf "database ping failed: %w" [OError err]))
      | None =>
          r <- perform (Call (DB_Exec db "PRAGMA foreign_keys = ON;" [])) ;;
          match r with
          | fail err => Ret (None, Some (Errorf "failed to enable foreign keys: %w" [OError err]))
          | ok _ =>
              s <- perform (NewSQLite {| db := Some db; path := dbPath; mu := false |}) ;;
              Ret (Some s, None)
          end
      end
  end.

Definition not_connected : error := errors_New "database not connected".

Definition Close (s : loc) : prog (option error) :=
  perform (Lock s) ;;
  defer (perform (Unlock s))
    (d <- perform (GetDb s) ;;
     match d with
     | Some _ =>
         d <- perform (GetDb s) ;;
         deref d (fun d =>
           err <- perform (Call (DB_Close d)) ;;
           perform (SetDb s None) ;;
           Ret err)
     | None => Ret None
     end).

Definition ExecContext (s : loc) (ctx : Context) (query : string) (args : list value)
  : prog (option Result * option error) :=
  perform (Lock s) ;;
  defer (perform (Unlock s))
    (d <- perform (GetDb s) ;;
     match d with
     | None => Ret (None, Some not_connected)
     | Some _ =>
         d <- perform (GetDb s) ;;
         deref d (fun d =>
           r <- perform (Call (DB_ExecContext d ctx query args)) ;; Ret (pair_of r))
     end).

Definition Exec (s : loc) (query : string) (args : list value) :=
  ExecContext s Background query args.

Definition QueryContext (s : loc) (ctx : Context) (query : string) (args : list value)
  : prog (option Rows * option error) :=
  perform (Lock s) ;;
  defer (perform (Unlock s))
    (d <- perform (GetDb s) ;;
     match d with
     | None => Ret (None, Some not_connected)
     | Some _ =>
         d <- perform (GetDb s) ;;
         deref d (fun d =>
           r <- perform (Call (DB_QueryContext d ctx query args)) ;; Ret (pair_of r))
     end).

Definition Query (s : loc) (query : string) (args : list value) :=
  QueryContext s Background query args.

Definition QueryRowContext (s : loc) (ctx : Context) (query : string) (args : list value)
  : prog (option Row) :=
  perform (Lock s) ;;
  defer (perform (Unlock s))
    (d <- perform (GetDb s) ;;
     match d with
     | None => Ret None
     | Some _ =>
         d <- perform (GetDb s) ;;
         deref d (fun d =>
           r <- perform (Call (DB_QueryRowContext d ctx query args)) ;; Ret (Some r))
     end).

Definition QueryRow (s : loc) (query : string) (args : list value) :=
  QueryRowContext s Background query args.

Definition BeginTxContext (s : loc) (ctx : Context) (opts : option TxOptions)
  : prog (option Tx * option error) :=
  perform (Lock s) ;;
  defer (perform (Unlock s))
    (d <- perform (GetDb s) ;;
     match d with
     | None => Ret (None, Some not_connected)
     | Some _ =>
         d <- perform (GetDb s) ;;
         deref d (fun d =>
           r <- perform (Call (DB_BeginTx d ctx opts)) ;; Ret (pair_of r))
     end).

Definition BeginTx (s : loc) := BeginTxContext s Background None.

End sqlite.
(** *** Calls of any method, for statements that range over all of them *)

Module sqlite_client.
Import sqlite.

Inductive method : Type :=
| mExec (query : string) (args : list value)
| mExecContext (ctx : Context) (query : string) (args : list value)
| mQuery (query : string) (args : list value)
| mQueryContext (ctx : Context) (query : string) (args : list value)
| mQueryRow (query : string) (args : list value)
| mQueryRowContext (ctx : Context) (query : string) (args : list value)
| mBeginTx
| mBeginTxContext (ctx : Context) (opts : option TxOptions)
| mClose.

Inductive answer : Type :=
| aExec (r : option Result * option error)
| aQuery (r : option Rows * option error)
| aQueryRow (r : option Row)
| aBeginTx (r : option Tx * option error)
| aClose (err : option error).

Definition invoke (s : loc) (m : method) : prog answer :=
  match m with
  | mExec q a => r <- Exec s q a ;; Ret (aExec r)
  | mExecContext ctx q a => r <- ExecContext s ctx q a ;; Ret (aExec r)
  | mQuery q a => r <- Query s q a ;; Ret (aQuery r)
  | mQueryContext ctx q a => r <- QueryContext s ctx q a ;; Ret (aQuery r)
  | mQueryRow q a => r <- QueryRow s q a ;; Ret (aQueryRow r)
  | mQueryRowContext ctx q a => r <- QueryRowContext s ctx q a ;; Ret (aQueryRow r)
  | mBeginTx => r <- BeginTx s ;; Ret (aBeginTx r)
  | mBeginTxContext ctx opts => r <- BeginTxContext s ctx opts ;; Ret (aBeginTx r)
  | mClose => r <- Close s ;; Ret (aClose r)
  end.

(** The error value a call hands to its caller; [QueryRow] and
    [QueryRowContext] return a [*sql.Row] only. *)
Definition returned_error (a : answer) : option error :=
  match a with
  | aExec r => snd r
  | aQuery r => snd r
  | aQueryRow _ => None
  | aBeginTx r => snd r
  | aClose err => err
  end.


(** Calls made one after the other by one goroutine. *)
Fixpoint invoke_all (s : loc) (ms : list method) : prog (list answer) :=
  match ms with
  | [] => Ret []
  | m :: ms' => a <- invoke s m ;; l <- invoke_all s ms' ;; Ret (a :: l)
  end.

End sqlite_client.

Module mysql_client.
Import mysql.

Inductive method : Type :=
| mPing (ctx : Context)
| mExec (query : string) (args : list value)
| mQuery (query : string) (args : list value)
| mQueryRow (query : string) (args : list value)
| mBeginTransaction
| mPrepare (query : string)
| mClose.

Inductive answer : Type :=
| aPing (err : option error)
| aExec (r : Z * option error)
| aQuery (r : option Rows * option error)
| aQueryRow (r : option Row)
| aBeginTransaction (r : option Tx * option error)
| aPrepare (r : option Stmt * option error)
| aClose (err : option error).

Definition invoke (h : loc) (m : method) : prog answer :=
  match m with
  | mPing ctx => r <- Ping h ctx ;; Ret (aPing r)
  | mExec q a => r <- Exec h q a ;; Ret (aExec r)
  | mQuery q a => r <- Query h q a ;; Ret (aQuery r)
  | mQueryRow q a => r <- QueryRow h q a ;; Ret (aQueryRow r)
  | mBeginTransaction => r <- BeginTransaction h ;; Ret (aBeginTransaction r)
  | mPrepare q => r <- Prepare h q ;; Ret (aPrepare r)
  | mClose => r <- Close h ;; Ret (aClose r)
  end.

Definition returned_error (a : answer) : option error :=
  match a with
  | aPing err => err
  | aExec r => snd r
  | aQuery r => snd r
  | aQueryRow _ => None
  | aBeginTransaction r => snd r
  | aPrepare r => snd r
  | aClose err => err
  end.

(** Calls made one after the other by one goroutine. *)
Fixpoint invoke_all (h : loc) (ms : list method) : prog (list answer) :=
  match ms with
  | [] => Ret []
  | m :: ms' => a <- invoke h m ;; l <- invoke_all h ms' ;; Ret (a :: l)
  end.


End mysql_client.

(** *** A model of [database/sql] over one database server

    Used to run the handles on concrete inputs.  [sql.Open] only records the
    data source; the server is first contacted by [Ping].  A pool that has
    been closed answers every later call that can report an error with
    [sql: database is closed], and closing it again is not an error. *)

Record Server : Type :=
  { ping_error : option error;
    exec_error : option error;
    rows_affected : Z * option error }.

Definition errDBClosed : error := errors_New "sql: database is closed".

Definition closes (d : DB) (e : event) : bool :=
  match e with
  | Ev c _ =>
      match c with
      | DB_Close d' => Nat.eqb d d'
      | _ => false
      end
  end.

Definition closed_in (tr : list event) (d : DB) : bool := existsb (closes d) tr.


Definition on_open {T} (tr : list event) (d : DB) (r : ret T) : ret T :=
  if closed_in tr d then fail errDBClosed else r.

Definition sql (srv : Server) : Env := fun R tr c =>
  match c in DBcall R return R with
  | sql_Open _ _ => ok (length tr)
  | SetMaxOpenConns _ _ => tt
  | SetMaxIdleConns _ _ => tt
  | SetConnMaxLifetime _ _ => tt
  | DB_Ping d => if closed_in tr d then Some errDBClosed else ping_error srv
  | DB_PingContext d _ => if closed_in tr d then Some errDBClosed else ping_error srv
  | DB_Exec d _ _ =>
      on_open tr d
        match exec_error srv with
        | Some e => fail e
        | None => ok {| LastInsertId := (0, None); RowsAffected := rows_affected srv |}
        end
  | DB_ExecContext d _ _ _ =>
      on_open tr d
        match exec_error srv with
        | Some e => fail e
        | None => ok {| LastInsertId := (0, None); RowsAffected := rows_affected srv |}
        end
  | DB_Query d _ _ => on_open tr d (ok (mkRows (length tr)))
  | DB_QueryContext d _ _ _ => on_open tr d (ok (mkRows (length tr)))
  | DB_QueryRow d _ _ => mkRow (length tr)
  | DB_QueryRowContext d _ _ _ => mkRow (length tr)
  | DB_Begin d => on_open tr d (ok (mkTx (length tr)))
  | DB_BeginTx d _ _ => on_open tr d (ok (mkTx (length tr)))
  | DB_Prepare d _ => on_open tr d (ok (mkStmt (length tr)))
  | DB_Close d => None
  end.

Definition up : Server :=
  {| ping_error := None; exec_error := None; rows_affected := (1, None) |}.

Definition unreachable : Server :=
  {| ping_error := Some (errors_New "dial tcp 10.0.0.1:3306: connect: no route to host");
     exec_error := Some (errors_New "dial tcp 10.0.0.1:3306: connect: no route to host");
     rows_affected := (0, None) |}.

Definition no_such_file : Server :=
  {| ping_error := Some (errors_New "unable to open database file: out of memory (14)");
     exec_error := Some (errors_New "unable to open database file: out of memory (14)");
     rows_affected := (0, None) |}.

Definition empty_world : World := {| trace := []; mysqls := ∅; sqlites := ∅ |}.

(** Two properties of [database/sql] that the MySQL handle leans on after
    [Close]; [sql] has both. *)
Definition Close_idempotent (env : Env) : Prop :=
  forall tr d, closed_in tr d = true -> env _ tr (DB_Close d) = None.


(** A world with one open MySQL handle at address 0, and one with one open
    SQLite handle at address 0, both on pool 0. *)
Definition one_mysql : World :=
  {| trace := [Ev (sql_Open "mysql" "u:p@tcp(db:3306)/epdg?charset=utf8mb4&parseTime=True&loc=Local") (ok 0%nat)];
     mysqls := {[ 0%nat := {| my_db := Some 0%nat |} ]};
     sqlites := ∅ |}.

Definition one_sqlite : World :=
  {| trace := [Ev (sql_Open "sqlite" "epdg.db") (ok 0%nat)];
     mysqls := ∅;
     sqlites := {[ 0%nat := {| db := Some 0%nat; path := "epdg.db"; mu := false |} ]} |}.

(** The two worlds above once [Close] has been called on the handle. *)
Definition closed_mysql : World :=
  {| trace := trace one_mysql ++ [Ev (DB_Close 0%nat) None];
     mysqls := mysqls one_mysql;
     sqlites := ∅ |}.

Definition closed_sqlite : World :=
  {| trace := trace one_sqlite ++ [Ev (DB_Close 0%nat) None];
     mysqls := ∅;
     sqlites := {[ 0%nat := {| db := None; path := "epdg.db"; mu := false |} ]} |}.

(** The handle at [s] is closed: no connection, mutex free. *)
Definition closed_at (w : World) (s : loc) : Prop :=
  exists o, sqlites w !! s = Some o /\ db o = None /\ mu o = false.

(** *** Several goroutines on one handle

    Goroutines interleave at the atomic actions.  A library call takes two
    steps, entering it and returning from it, so that two goroutines can be
    inside the library at once unless the program prevents it.  [Lock] on a
    held mutex does not step. *)

Inductive thread (A : Type) : Type :=
| Idle (p : prog A)
| InCall {R : Type} (c : DBcall R) (k : R -> prog A).
Arguments Idle {A} p.
Arguments InCall {A R} c k.

Record config (A : Type) : Type :=
  { world : World;
    threads : list (thread A) }.
Arguments world {A} c.
Arguments threads {A} c.

Definition call_of {R} (a : act R) : option (DBcall R) :=
  match a in act R return option (DBcall R) with
  | Call c => Some c
  | _ => None
  end.

Definition in_call {A} (t : thread A) : bool :=
  match t with
  | InCall _ _ => true
  | Idle _ => false
  end.

(** A goroutine that touches the connection: it is inside a library call,
    or its next action is a library call or a read or write of the [db]
    field. *)
Definition touches {A} (t : thread A) : bool :=
  match t with
  | InCall _ _ => true
  | Idle (Do a _) =>
      match a with
      | Call _ => true
      | GetDb _ => true
      | SetDb _ _ => true
      | _ => false
      end
  | Idle _ => false
  end.

Definition finished {A} (t : thread A) : bool :=
  match t with
  | Idle (Ret _) | Idle (Panic _) => true
  | _ => false
  end.

Section Interleaving.

Variable env : Env.
Context {A : Type}.

(** One step of one goroutine, if it can take one. *)
Definition advance (t : thread A) (w : World) : option (thread A * World) :=
  match t with
  | Idle (Ret _) => None
  | Idle (Panic _) => None
  | Idle (Do a k) =>
      match call_of a with
      | Some c => Some (InCall c k, w)
      | None =>
          match step env a w with
          | Done r w' => Some (Idle (k r), w')
          | Fault msg => Some (Idle (Panic msg), w)
          | Wait => None
          end
      end
  | InCall c k =>
      let r := env _ (trace w) c in
      Some (Idle (k r), log (Ev c r) w)
  end.

(** The scheduler picks goroutine [i]. *)
Definition schedule (i : nat) (cfg : config A) : config A :=
  match threads cfg !! i with
  | Some t =>
      match advance t (world cfg) with
      | Some (t', w') => {| world := w'; threads := <[i := t']> (threads cfg) |}
      | None => cfg
      end
  | None => cfg
  end.

Definition exec (sched : list nat) (cfg : config A) : config A :=
  fold_left (fun c i => schedule i c) sched cfg.

End Interleaving.

(** The goroutines of [clients], each about to make its calls on [s]. *)
Definition spawn (s : loc) (clients : list (list sqlite_client.method)) (w : World)
  : config (list sqlite_client.answer) :=
  {| world := w;
     threads := map (fun ms => Idle (sqlite_client.invoke_all s ms)) clients |}.

(** Whether the mutex of the handle at [s] is held. *)
Definition locked (w : World) (s : loc) : bool :=
  match sqlites w !! s with
  | Some o => mu o
  | None => false
  end.

(** The lock discipline of a function body on the handle at [s], for a
    goroutine that holds the mutex ([held = true]) or does not: [s.db] is
    read or written and the library is called only while the mutex is held,
    [Lock] is called only while it is not, [Unlock] only while it is, and the
    body returns or panics only with the mutex released. *)
Definition act_ok {R} (s : loc) (held : bool) (a : act R) (K : bool -> R -> Prop) : Prop :=
  match a in act R return (bool -> R -> Prop) -> Prop with
  | Call _ => fun K => held = true /\ forall r, K true r
  | GetDb s' => fun K => s' = s /\ held = true /\ forall v, K true v
  | SetDb s' _ => fun K => s' = s /\ held = true /\ K true tt
  | Lock s' => fun K => s' = s /\ held = false /\ K true tt
  | Unlock s' => fun K => s' = s /\ held = true /\ K false tt
  | NewMySql _ => fun _ => False
  | MyDb _ => fun _ => False
  | NewSQLite _ => fun _ => False
  end K.

Fixpoint disciplined {A} (s : loc) (held : bool) (p : prog A) : Prop :=
  match p with
  | Ret _ => held = false
  | Panic _ => held = false
  | Do a k => act_ok s held a (fun b r => disciplined s b (k r))
  end.

Definition thread_ok {A} (s : loc) (held : bool) (t : thread A) : Prop :=
  match t with
  | Idle p => disciplined s held p
  | InCall _ k => held = true /\ forall r, disciplined s true (k r)
  end.

Definition is_holder (holder : option nat) (i : nat) : bool :=
  match holder with
  | Some j => Nat.eqb i j
  | None => false
  end.

(** The invariant of the interleaved runs: the handle exists, its mutex is
    held exactly when some goroutine [holder] is between its [Lock] and its
    [Unlock], and every goroutine keeps the discipline from where it is. *)
Definition inv {A} (s : loc) (holder : option nat) (cfg : config A) : Prop :=
  is_Some (sqlites (world cfg) !! s) /\
  locked (world cfg) s = match holder with Some _ => true | None => false end /\
  (forall i, holder = Some i -> is_Some (threads cfg !! i)) /\
  forall i t, threads cfg !! i = Some t -> thread_ok s (is_holder holder i) t.

(** Two goroutines: one executes a statement, the other queries and then
    closes the handle. *)
Definition two_clients : list (list sqlite_client.method) :=
  [[sqlite_client.mExec "DELETE FROM sessions" []];
   [sqlite_client.mQuery "SELECT 1" []; sqlite_client.mClose]].


(** The world after some more library calls and with the SQLite handle at
    [s] replaced. *)
Definition after (w : World) (new : list event) (s : loc) (o : SQLiteDB) : World :=
  {| trace := trace w ++ new; mysqls := mysqls w; sqlites := <[s := o]> (sqlites w) |}.


(** A server on which statements fail although it answers [Ping]. *)
Definition read_only : Server :=
  {| ping_error := None;
     exec_error := Some (errors_New "attempt to write a readonly database");
     rows_affected := (0, None) |}.

(** The connection of the handle at [s]. *)
Definition db_at (w : World) (s : loc) : option DB :=
  match sqlites w !! s with
  | Some o => db o
  | None => None
  end.

(** A function body that creates no handle and stores nothing but nil in a
    [db] field. *)
Definition stores_nil {R} (a : act R) (K : R -> Prop) : Prop :=
  match a in act R return (R -> Prop) -> Prop with
  | SetDb _ v => fun K => v = None /\ K tt
  | NewSQLite _ => fun _ => False
  | NewMySql _ => fun _ => False
  | Call _ => fun K => forall r, K r
  | MyDb _ => fun K => forall r, K r
  | GetDb _ => fun K => forall r, K r
  | Lock _ => fun K => K tt
  | Unlock _ => fun K => K tt
  end K.

Fixpoint only_nil_stores {A} (p : prog A) : Prop :=
  match p with
  | Ret _ => True
  | Panic _ => True
  | Do a k => stores_nil a (fun r => only_nil_stores (k r))
  end.

Definition thread_stores_nil {A} (t : thread A) : Prop :=
  match t with
  | Idle p => only_nil_stores p
  | InCall _ k => forall r, only_nil_stores (k r)
  end.

End database.

(** ** The [logger] package *)

(** The parts of [zapcore], [zap] and [lumberjack] that [Init] puts together,
    as the data they are built from. *)

Module zapcore.

(** [zapcore.Level] is an [int8]. *)
Definition Level := Z.
Definition DebugLevel : Level := -1.
Definition InfoLevel : Level := 0.
Definition WarnLevel : Level := 1.
Definition ErrorLevel : Level := 2.
Definition DPanicLevel : Level := 3.
Definition PanicLevel : Level := 4.
Definition FatalLevel : Level := 5.
Definition InvalidLevel : Level := 6.

(** [func (l Level) Enabled(lvl Level) bool { return lvl >= l }] *)
Definition Enabled (l lvl : Level) : bool := Z.leb l lvl.

Definition OmitKey : string := "".
Definition DefaultLineEnding : string := String "010" "".

Inductive LevelEncoder : Type := LowercaseLevelEncoder | CapitalColorLevelEncoder.
Inductive TimeEncoder : Type := ISO8601TimeEncoder | LayoutTimeEncoder (layout : string).
Inductive DurationEncoder : Type := SecondsDurationEncoder | StringDurationEncoder.
Inductive CallerEncoder : Type := ShortCallerEncoder.

Record EncoderConfig : Type :=
  { TimeKey : string;
    LevelKey : string;
    NameKey : string;
    CallerKey : string;
    FunctionKey : string;
    MessageKey : string;
    StacktraceKey : string;
    LineEnding : string;
    EncodeLevel : LevelEncoder;
    EncodeTime : TimeEncoder;
    EncodeDuration : DurationEncoder;
    EncodeCaller : CallerEncoder }.

Inductive Encoder : Type :=
| NewJSONEncoder (cfg : EncoderConfig)
| NewConsoleEncoder (cfg : EncoderConfig).

(** [lumberjack.Logger], the rotating file writer. *)
Record lumberjack_Logger : Type :=
  { Filename : string;
    MaxSize : Z;
    MaxBackups : Z;
    MaxAge : Z;
    Compress : bool }.

Inductive WriteSyncer : Type :=
| AddSync (l : lumberjack_Logger)
| Lock_Stdout.

(** [zapcore.NewCore(enc, ws, enab)] *)
Record Core : Type := NewCore
  { enc : Encoder;
    ws : WriteSyncer;
    enab : Level }.

(** [zapcore.NewTee]: a record goes to every core whose level admits it. *)
Definition NewTee (cores : list Core) : list Core := cores.

End zapcore.

Module zap.

Inductive Option : Type :=
| AddCaller
| AddCallerSkip (skip : Z).

Record Logger : Type := New
  { core : list zapcore.Core;
    options : list Option }.

Inductive SugaredLogger : Type :=
| Sugar (base : Logger).

Definition Desugar (l : SugaredLogger) : Logger :=
  match l with Sugar base => base end.

(** The sinks a record of level [lvl] is written to. *)
Definition sinks (l : SugaredLogger) (lvl : zapcore.Level) : list zapcore.WriteSyncer :=
  map zapcore.ws
    (List.filter (fun c => zapcore.Enabled (zapcore.enab c) lvl) (core (Desugar l))).

End zap.

Module logger.

(** [type LogLevel string] *)
Definition LogLevel := string.
Definition DebugLevel : LogLevel := "debug".
Definition InfoLevel : LogLevel := "info".
Definition WarnLevel : LogLevel := "warn".
Definition ErrorLevel : LogLevel := "error".
Definition PanicLevel : LogLevel := "panic".
Definition FatalLevel : LogLevel := "fatal".

Record Config : Type :=
  { Level : LogLevel;
    Filename : string;
    MaxSize : Z;
    MaxBackups : Z;
    MaxAge : Z;
    Compress : bool;
    Console : bool }.

(** What the package does to the world outside it. *)
Inductive os_event : Type :=
| MkdirAll (path : string) (perm : Z) (err : option error)
| Sync (l : zap.Logger).

(** The package variable [globalLogger] and the effects so far. *)
Record State : Type :=
  { globalLogger : option zap.SugaredLogger;
    effects : list os_event }.

Definition getJSONEncoder : zapcore.Encoder :=
  zapcore.NewJSONEncoder
    {| zapcore.TimeKey := "time";
       zapcore.LevelKey := "level";
       zapcore.NameKey := "logger";
       zapcore.CallerKey := "caller";
       zapcore.FunctionKey := zapcore.OmitKey;
       zapcore.MessageKey := "msg";
       zapcore.StacktraceKey := "stacktrace";
       zapcore.LineEnding := zapcore.DefaultLineEnding;
       zapcore.EncodeLevel := zapcore.LowercaseLevelEncoder;
       zapcore.EncodeTime := zapcore.ISO8601TimeEncoder;
       zapcore.EncodeDuration := zapcore.SecondsDurationEncoder;
       zapcore.EncodeCaller := zapcore.ShortCallerEncoder |}.

(** [customTimeEncoder] appends [t.Format("2006-01-02 15:04:05.000")]. *)
Definition customTimeEncoder : zapcore.TimeEncoder :=
  zapcore.LayoutTimeEncoder "2006-01-02 15:04:05.000".

Definition getConsoleEncoder : zapcore.Encoder :=
  zapcore.NewConsoleEncoder
    {| zapcore.TimeKey := "T";
       zapcore.LevelKey := "L";
       zapcore.NameKey := "N";
       zapcore.CallerKey := "C";
       zapcore.FunctionKey := zapcore.OmitKey;
       zapcore.MessageKey := "M";
       zapcore.StacktraceKey := "S";
       zapcore.LineEnding := zapcore.DefaultLineEnding;
       zapcore.EncodeLevel := zapcore.CapitalColorLevelEncoder;
       zapcore.EncodeTime := customTimeEncoder;
       zapcore.EncodeDuration := zapcore.StringDurationEncoder;
       zapcore.EncodeCaller := zapcore.ShortCallerEncoder |}.

(** The [switch] compares [level] with the six constants in turn. *)
Definition mapLogLevel (level : LogLevel) : zapcore.Level :=
  if String.eqb level DebugLevel then zapcore.DebugLevel
  else if String.eqb level InfoLevel then zapcore.InfoLevel
  else if String.eqb level WarnLevel then zapcore.WarnLevel
  else if String.eqb level ErrorLevel then zapcore.ErrorLevel
  else if String.eqb level PanicLevel then zapcore.PanicLevel
  else if String.eqb level FatalLevel then zapcore.FatalLevel
  else zapcore.InfoLevel.

Definition fileCore (cfg : Config) (logLevel : zapcore.Level) : zapcore.Core :=
  zapcore.NewCore getJSONEncoder
    (zapcore.AddSync
       {| zapcore.Filename := Filename cfg;
          zapcore.MaxSize := MaxSize cfg;
          zapcore.MaxBackups := MaxBackups cfg;
          zapcore.MaxAge := MaxAge cfg;
          zapcore.Compress := Compress cfg |})
    logLevel.

Definition consoleCore (logLevel : zapcore.Level) : zapcore.Core :=
  zapcore.NewCore getConsoleEncoder zapcore.Lock_Stdout logLevel.

(** The cores [Init] ends up with for [cfg] at threshold [lvl]. *)
Definition cores_of (cfg : Config) (lvl : zapcore.Level) : list zapcore.Core :=
  ((if String.eqb (Filename cfg) "" then [] else [fileCore cfg lvl]) ++
   (if Console cfg then [consoleCore lvl] else []))%list.

Section Init.

(** [os.MkdirAll] answers from the effects so far, the path and the mode;
    [filepath.Dir] is the library's. *)
Variable os_MkdirAll : list os_event -> string -> Z -> option error.
Variable filepath_Dir : string -> string.

Definition record (e : os_event) (st : State) : State :=
  {| globalLogger := globalLogger st; effects := effects st ++ [e] |}.

Definition Init (cfg : Config) (st : State) : option error * State :=
  let logLevel := mapLogLevel (Level cfg) in
  let logLevel := if Z.eqb logLevel zapcore.InvalidLevel then zapcore.InfoLevel else logLevel in
  let cores : list zapcore.Core := [] in
  (* output file core *)
  match
    (if String.eqb (Filename cfg) "" then inr (cores, st)
     else
       let dir := filepath_Dir (Filename cfg) in
       let err := os_MkdirAll (effects st) dir 493 (* 0755 *) in
       let st := record (MkdirAll dir 493 err) st in
       match err with
       | Some err => inl (err, st)
       | None => inr ((cores ++ [fileCore cfg logLevel])%list, st)
       end)
  with
  | inl (err, st) => (Some err, st)
  | inr (cores, st) =>
      (* console output *)
      let cores := if Console cfg then (cores ++ [consoleCore logLevel])%list else cores in
      let core := zapcore.NewTee cores in
      let logger := zap.New core [zap.AddCaller; zap.AddCallerSkip 1] in
      (None, {| globalLogger := Some (zap.Sugar logger);
                effects := effects st ++ [Sync logger] |})
  end.


Definition default_config : Config :=
  {| Level := InfoLevel;
     Filename := "./logs/app.log";
     MaxSize := 100;
     MaxBackups := 0;
     MaxAge := 7;
     Compress := false;
     Console := true |}.

Definition Logger (st : State) : option zap.SugaredLogger * State :=
  match globalLogger st with
  | None =>
      match Init default_config st with
      | (Some _, st') => (None, st')
      | (None, st') => (globalLogger st', st')
      end
  | Some l => (Some l, st)
  end.

End Init.

End logger.

(** ** The logging functions of the [logger] package *)

Module logger_calls.
Import logger.

(** What a call ends in: it returns, it panics (on a nil pointer, or with
    the message it has logged), or it ends the process. *)
Inductive panic_value : Type :=
| NilPointer
| Logged (template : option string) (args : list operand).

Inductive ending : Type :=
| Returns
| Panics (v : panic_value)
| Exits (code : Z).

(** A record handed to a sink. *)
Record Written : Type :=
  { sink : zapcore.WriteSyncer;
    level : zapcore.Level;
    template : option string;
    args : list operand }.

(** The methods [Debug] ... [Fatalf] of [*zap.SugaredLogger]: the record
    goes to the sinks whose core admits its level; after that a record of
    [PanicLevel] panics and one of [FatalLevel] exits with status 1. *)
Definition zap_ending (lvl : zapcore.Level) (template : option string) (args : list operand)
  : ending :=
  if Z.eqb lvl zapcore.PanicLevel then Panics (Logged template args)
  else if Z.eqb lvl zapcore.FatalLevel then Exits 1
  else Returns.

Definition zap_log (l : zap.SugaredLogger) (lvl : zapcore.Level)
    (template : option string) (args : list operand) : list Written * ending :=
  (map (fun ws => {| sink := ws; level := lvl; template := template; args := args |})
     (zap.sinks l lvl),
   zap_ending lvl template args).

(** What [With] of a [*zap.SugaredLogger] returns: a logger that adds
    [fields] to its records. *)
Record Derived : Type :=
  { parent : zap.SugaredLogger;
    fields : list operand }.

(** The package variable, the effects so far, and what the sinks were
    handed. *)
Record Process : Type :=
  { state : State;
    output : list Written }.

Section Calls.

Variable os_MkdirAll : list os_event -> string -> Z -> option error.
Variable filepath_Dir : string -> string.

(** [Logger().m(args...)] for a logging method [m] of level [lvl]. *)
Definition forward (lvl : zapcore.Level) (template : option string) (args : list operand)
    (p : Process) : ending * Process :=
  match Logger os_MkdirAll filepath_Dir (state p) with
  | (None, st) => (Panics NilPointer, {| state := st; output := output p |})
  | (Some l, st) =>
      let (ws, e) := zap_log l lvl template args in
      (e, {| state := st; output := output p ++ ws |})
  end.

Definition Debug (args : list operand) := forward zapcore.DebugLevel None args.
Definition Debugf (template : string) (args : list operand) :=
  forward zapcore.DebugLevel (Some template) args.
Definition Info (args : list operand) := forward zapcore.InfoLevel None args.
Definition Infof (template : string) (args : list operand) :=
  forward zapcore.InfoLevel (Some template) args.
Definition Warn (args : list operand) := forward zapcore.WarnLevel None args.
Definition Warnf (template : string) (args : list operand) :=
  forward zapcore.WarnLevel (Some template) args.
Definition Error (args : list operand) := forward zapcore.ErrorLevel None args.
Definition Errorf (template : string) (args : list operand) :=
  forward zapcore.ErrorLevel (Some template) args.
Definition Panic (args : list operand) := forward zapcore.PanicLevel None args.
Definition Panicf (template : string) (args : list operand) :=
  forward zapcore.PanicLevel (Some template) args.
Definition Fatal (args : list operand) := forward zapcore.FatalLevel None args.
Definition Fatalf (template : string) (args : list operand) :=
  forward zapcore.FatalLevel (Some template) args.

Definition With (fields : list operand) (p : Process) : (Derived + panic_value) * Process :=
  match Logger os_MkdirAll filepath_Dir (state p) with
  | (None, st) => (inr NilPointer, {| state := st; output := output p |})
  | (Some l, st) =>
      (inl {| parent := l; fields := fields |}, {| state := st; output := output p |})
  end.

(** A call of any of the twelve logging functions, for statements that
    range over all of them. *)
Inductive call : Type :=
| cDebug (args : list operand)
| cDebugf (template : string) (args : list operand)
| cInfo (args : list operand)
| cInfof (template : string) (args : list operand)
| cWarn (args : list operand)
| cWarnf (template : string) (args : list operand)
| cError (args : list operand)
| cErrorf (template : string) (args : list operand)
| cPanic (args : list operand)
| cPanicf (template : string) (args : list operand)
| cFatal (args : list operand)
| cFatalf (template : string) (args : list operand).

Definition invoke (c : call) : Process -> ending * Process :=
  match c with
  | cDebug a => Debug a
  | cDebugf t a => Debugf t a
  | cInfo a => Info a
  | cInfof t a => Infof t a
  | cWarn a => Warn a
  | cWarnf t a => Warnf t a
  | cError a => Error a
  | cErrorf t a => Errorf t a
  | cPanic a => Panic a
  | cPanicf t a => Panicf t a
  | cFatal a => Fatal a
  | cFatalf t a => Fatalf t a
  end.

End Calls.

(** The level a function logs at, and what it passes on. *)
Definition level_of (c : call) : zapcore.Level :=
  match c with
  | cDebug _ | cDebugf _ _ => zapcore.DebugLevel
  | cInfo _ | cInfof _ _ => zapcore.InfoLevel
  | cWarn _ | cWarnf _ _ => zapcore.WarnLevel
  | cError _ | cErrorf _ _ => zapcore.ErrorLevel
  | cPanic _ | cPanicf _ _ => zapcore.PanicLevel
  | cFatal _ | cFatalf _ _ => zapcore.FatalLevel
  end.

Definition template_of (c : call) : option string :=
  match c with
  | cDebugf t _ | cInfof t _ | cWarnf t _ | cErrorf t _ | cPanicf t _ | cFatalf t _ => Some t
  | _ => None
  end.

Definition args_of (c : call) : list operand :=
  match c with
  | cDebug a | cInfo a | cWarn a | cError a | cPanic a | cFatal a => a
  | cDebugf _ a | cInfof _ a | cWarnf _ a | cErrorf _ a | cPanicf _ a | cFatalf _ a => a
  end.

(** The record of [c] as sink [ws] gets it. *)
Definition record_of (c : call) (ws : zapcore.WriteSyncer) : Written :=
  {| sink := ws; level := level_of c; template := template_of c; args := args_of c |}.

(** The sinks [Init] sets up for [cfg]. *)
Definition sinks_of (cfg : Config) : list zapcore.WriteSyncer :=
  ((if String.eqb (Filename cfg) "" then []
    else [zapcore.AddSync
            {| zapcore.Filename := Filename cfg;
               zapcore.MaxSize := MaxSize cfg;
               zapcore.MaxBackups := MaxBackups cfg;
               zapcore.MaxAge := MaxAge cfg;
               zapcore.Compress := Compress cfg |}]) ++
   (if Console cfg then [zapcore.Lock_Stdout] else []))%list.

(** A configuration that asks for warnings and above. *)
Definition warn_config : Config :=
  {| Level := "warn";
     Filename := "/var/log/epdg/epdg.log";
     MaxSize := 50;
     MaxBackups := 5;
     MaxAge := 30;
     Compress := true;
     Console := true |}.

(** A file system on which every directory can be created, one on which
    none can, and [filepath.Dir] on the paths used below. *)
Definition mkdir_ok (_ : list os_event) (_ : string) (_ : Z) : option error := None.

Definition mkdir_denied (_ : list os_event) (path : string) (_ : Z) : option error :=
  Some (errors_New ("mkdir " +:+ path +:+ ": permission denied")).

Definition dir_of (path : string) : string :=
  if String.eqb path "./logs/app.log" then "logs" else "/var/log/epdg".

Definition fresh : State := {| globalLogger := None; effects := [] |}.

End logger_calls.

(** * Properties *)

Example Sprintf_dsn :
  Sprintf "%s:%s@tcp(%s:%d)/%s?charset=%s&parseTime=True&loc=Local"
    [OString "root"; OString "pw"; OString "127.0.0.1"; OInt 3306; OString "epdg"; OString "utf8mb4"]
  = "root:pw@tcp(127.0.0.1:3306)/epdg?charset=utf8mb4&parseTime=True&loc=Local".
Proof. reflexivity. Qed.

Example Errorf_wraps :
  Errorf "error execute: %w" [OError (errors_New "boom")]
  = wrapError "error execute: boom" (errorString "boom").
Proof. reflexivity. Qed.

Example decimal_negative : decimal (-42) = "-42".
Proof. reflexivity. Qed.

Import database.

(** *** Error messages *)

Lemma append_empty (s : string) : s +:+ "" = s.
Proof. induction s as [|c s IH]; [reflexivity|]. change (String c (s +:+ "") = String c s). by f_equal. Qed.

Ltac error_text := unfold Errorf; simpl; rewrite ?append_empty; reflexivity.

(** *** Worlds *)

Lemma put_sqlite_put s v v' w : put_sqlite s v (put_sqlite s v' w) = put_sqlite s v w.
Proof. unfold put_sqlite; simpl. by rewrite insert_insert_eq. Qed.

Lemma put_sqlite_id s o w : sqlites w !! s = Some o -> put_sqlite s o w = w.
Proof. intros H. destruct w; unfold put_sqlite; simpl in *. by rewrite insert_id. Qed.

Lemma relock_id o : mu o = false -> set_mu false (set_mu true o) = o.
Proof. destruct o; simpl; intros ->; reflexivity. Qed.

Lemma closed_in_app tr tr' d : closed_in (tr ++ tr') d = closed_in tr d || closed_in tr' d.
Proof. apply existsb_app. Qed.

(** *** One goroutine: what each method returns *)

Section Sequential.

Variable env : Env.


Ltac unlock_world :=
  rewrite ?put_sqlite_put; rewrite ?relock_id by assumption;
  rewrite ?put_sqlite_id by assumption.

(** SQLite methods on a closed handle. *)

Lemma ExecContext_closed w s ctx query args :
  closed_at w s ->
  run env (sqlite.ExecContext s ctx query args) w = Returned (None, Some sqlite.not_connected) w.
Proof.
  intros (o & Ho & Hdb & Hmu). unfold sqlite.ExecContext. simpl.
  rewrite Ho, Hmu. simpl. rewrite lookup_insert_eq. simpl. rewrite Hdb. simpl.
  rewrite lookup_insert_eq. simpl. by unlock_world.
Qed.

Lemma QueryContext_closed w s ctx query args :
  closed_at w s ->
  run env (sqlite.QueryContext s ctx query args) w = Returned (None, Some sqlite.not_connected) w.
Proof.
  intros (o & Ho & Hdb & Hmu). unfold sqlite.QueryContext. simpl.
  rewrite Ho, Hmu. simpl. rewrite lookup_insert_eq. simpl. rewrite Hdb. simpl.
  rewrite lookup_insert_eq. simpl. by unlock_world.
Qed.

Lemma QueryRowContext_closed w s ctx query args :
  closed_at w s ->
  run env (sqlite.QueryRowContext s ctx query args) w = Returned None w.
Proof.
  intros (o & Ho & Hdb & Hmu). unfold sqlite.QueryRowContext. simpl.
  rewrite Ho, Hmu. simpl. rewrite lookup_insert_eq. simpl. rewrite Hdb. simpl.
  rewrite lookup_insert_eq. simpl. by unlock_world.
Qed.

Lemma BeginTxContext_closed w s ctx opts :
  closed_at w s ->
  run env (sqlite.BeginTxContext s ctx opts) w = Returned (None, Some sqlite.not_connected) w.
Proof.
  intros (o & Ho & Hdb & Hmu). unfold sqlite.BeginTxContext. simpl.
  rewrite Ho, Hmu. simpl. rewrite lookup_insert_eq. simpl. rewrite Hdb. simpl.
  rewrite lookup_insert_eq. simpl. by unlock_world.
Qed.

Lemma Close_closed w s :
  closed_at w s -> run env (sqlite.Close s) w = Returned None w.
Proof.
  intros (o & Ho & Hdb & Hmu). unfold sqlite.Close. simpl.
  rewrite Ho, Hmu. simpl. rewrite lookup_insert_eq. simpl. rewrite Hdb. simpl.
  rewrite lookup_insert_eq. simpl. by unlock_world.
Qed.

(** [Close] on a handle whose mutex is free: the connection, if any, is
    closed through the library and the field is set to nil. *)
Lemma Close_run w s o :
  sqlites w !! s = Some o -> mu o = false ->
  run env (sqlite.Close s) w =
  match db o with
  | Some d =>
      let r := env _ (trace w) (DB_Close d) in
      Returned r (put_sqlite s {| db := None; path := path o; mu := false |}
                    (log (Ev (DB_Close d) r) w))
  | None => Returned None w
  end.
Proof.
  intros Ho Hmu. destruct (db o) as [d|] eqn:Hdb.
  - unfold sqlite.Close. simpl. rewrite Ho, Hmu. simpl.
    rewrite lookup_insert_eq. simpl. rewrite Hdb. simpl.
    rewrite lookup_insert_eq. simpl. rewrite Hdb. simpl.
    rewrite lookup_insert_eq. simpl. rewrite lookup_insert_eq. simpl.
    unfold put_sqlite, log; simpl. by rewrite !insert_insert_eq.
  - apply Close_closed. by exists o.
Qed.

(** If [Close] returns, the handle existed with a free mutex, and is closed
    afterwards. *)
Lemma Close_returned w s e w' :
  run env (sqlite.Close s) w = Returned e w' ->
  exists o, sqlites w !! s = Some o /\ mu o = false.
Proof.
  unfold sqlite.Close. simpl. destruct (sqlites w !! s) as [o|] eqn:Ho; [|discriminate].
  destruct (mu o) eqn:Hmu; [discriminate|]. eauto.
Qed.

Lemma Close_leaves_closed w s e w' :
  run env (sqlite.Close s) w = Returned e w' -> closed_at w' s.
Proof.
  intros H. destruct (Close_returned _ _ _ _ H) as (o & Ho & Hmu).
  rewrite (Close_run _ _ _ Ho Hmu) in H. destruct (db o) as [d|] eqn:Hdb.
  - injection H as _ <-. eexists. split; [apply lookup_insert_eq|]. by simpl.
  - injection H as _ <-. by exists o.
Qed.



(** C1 (as amended).  Once [Close] has returned on a SQLite handle, [Exec],
    [ExecContext], [Query], [QueryContext], [BeginTx] and [BeginTxContext]
    return the error "database not connected", while [QueryRow] and
    [QueryRowContext], which have no error result, return a nil row.  All
    eight return (no panic, no wait) and leave the world as it was: no
    library call is made and the mutex is free again. *)
Theorem sqlite_calls_after_Close s w e w' :
  run env (sqlite.Close s) w = Returned e w' ->
  (forall ctx q a,
      run env (sqlite.ExecContext s ctx q a) w' = Returned (None, Some (errorString "database not connected")) w') /\
  (forall q a,
      run env (sqlite.Exec s q a) w' = Returned (None, Some (errorString "database not connected")) w') /\
  (forall ctx q a,
      run env (sqlite.QueryContext s ctx q a) w' = Returned (None, Some (errorString "database not connected")) w') /\
  (forall q a,
      run env (sqlite.Query s q a) w' = Returned (None, Some (errorString "database not connected")) w') /\
  (forall ctx opts,
      run env (sqlite.BeginTxContext s ctx opts) w' = Returned (None, Some (errorString "database not connected")) w') /\
  run env (sqlite.BeginTx s) w' = Returned (None, Some (errorString "database not connected")) w' /\
  (forall ctx q a, run env (sqlite.QueryRowContext s ctx q a) w' = Returned None w') /\
  (forall q a, run env (sqlite.QueryRow s q a) w' = Returned None w').
Proof.
  intros H. apply Close_leaves_closed in H.
  repeat split; intros; unfold sqlite.Exec, sqlite.Query, sqlite.QueryRow, sqlite.BeginTx.
  - by apply ExecContext_closed.
  - by apply ExecContext_closed.
  - by apply QueryContext_closed.
  - by apply QueryContext_closed.
  - by apply BeginTxContext_closed.
  - by apply BeginTxContext_closed.
  - by apply QueryRowContext_closed.
  - by apply QueryRowContext_closed.
Qed.

(** MySQL methods on a handle that holds a pool. *)

Lemma mysql_Close_run w h o :
  mysqls w !! h = Some o ->
  run env (mysql.Close h) w =
  match my_db o with
  | Some d => let r := env _ (trace w) (DB_Close d) in Returned r (log (Ev (DB_Close d) r) w)
  | None => Returned None w
  end.
Proof.
  intros Ho. unfold mysql.Close. simpl. rewrite Ho. simpl.
  destruct (my_db o); reflexivity.
Qed.

Lemma mysql_Close_returned w h e w' :
  run env (mysql.Close h) w = Returned e w' -> exists o, mysqls w !! h = Some o.
Proof.
  unfold mysql.Close. simpl. destruct (mysqls w !! h) as [o|]; [eauto|discriminate].
Qed.

Lemma mysql_Close_keeps w h e w' :
  run env (mysql.Close h) w = Returned e w' ->
  mysqls w' = mysqls w /\ sqlites w' = sqlites w /\
  forall d, mysqls w !! h = Some {| my_db := Some d |} ->
    closed_in (trace w') d = true.
Proof.
  intros H. destruct (mysql_Close_returned _ _ _ _ H) as (o & Ho).
  rewrite (mysql_Close_run _ _ _ Ho) in H. destruct (my_db o) as [d|] eqn:Hd.
  - simpl in H. injection H as _ <-. repeat split.
    intros d' Hd'. rewrite Ho in Hd'. injection Hd' as ->. simpl in Hd. injection Hd as ->.
    simpl. rewrite closed_in_app. simpl. rewrite Nat.eqb_refl. by rewrite orb_true_r.
  - injection H as _ <-. repeat split.
    intros d' Hd'. rewrite Ho in Hd'. injection Hd' as ->. discriminate.
Qed.

(** C2 (as amended).  On the SQLite handle a second [Close] returns no error
    and does nothing, the connection being nil already.  On the MySQL handle
    [Close] leaves the [db] field as it was, so a second [Close] calls the
    pool's [Close] once more and returns what that call answers; this is no
    error whenever the pool's own [Close] is idempotent.  (A MySQL handle
    whose [db] is nil from the start is closed without any call.) *)
Theorem Close_twice :
  (forall s w e w',
      run env (sqlite.Close s) w = Returned e w' ->
      run env (sqlite.Close s) w' = Returned None w') /\
  (forall h d w e w',
      mysqls w !! h = Some {| my_db := Some d |} ->
      run env (mysql.Close h) w = Returned e w' ->
      mysqls w' !! h = Some {| my_db := Some d |} /\
      let r := env _ (trace w') (DB_Close d) in
      run env (mysql.Close h) w' = Returned r (log (Ev (DB_Close d) r) w') /\
      (Close_idempotent env -> r = None)) /\
  (forall h w,
      mysqls w !! h = Some {| my_db := None |} ->
      run env (mysql.Close h) w = Returned None w).
Proof.
  split; [|split].
  - intros s w e w' H. apply Close_closed. by apply Close_leaves_closed in H.
  - intros h d w e w' Hh H. destruct (mysql_Close_keeps _ _ _ _ H) as (Hm & _ & Hc).
    assert (Hh' : mysqls w' !! h = Some {| my_db := Some d |}) by (by rewrite Hm).
    split; [assumption|]. split.
    + by rewrite (mysql_Close_run _ _ _ Hh').
    + intros Hi. apply Hi. by apply Hc.
  - intros h w Hh. by rewrite (mysql_Close_run _ _ _ Hh).
Qed.




(** The constructors. *)

Ltac units :=
  repeat match goal with
         | |- context [env unit ?tr ?c] => destruct (env unit tr c)
         end.

Lemma dsn_text cfg :
  mysql.dsn cfg =
  mysql.Username cfg +:+ ":" +:+ mysql.Password cfg +:+ "@tcp(" +:+ mysql.Host cfg +:+ ":" +:+
  decimal (mysql.Port cfg) +:+ ")/" +:+ mysql.Database cfg +:+ "?charset=" +:+
  (if String.eqb (mysql.Charset cfg) "" then "utf8mb4" else mysql.Charset cfg) +:+
  "&parseTime=True&loc=Local".
Proof. reflexivity. Qed.

Lemma NewMySqlDB_run cfg w :
  run env (mysql.NewMySqlDB cfg) w =
  match env _ (trace w) (sql_Open "mysql" (mysql.dsn cfg)) with
  | fail e =>
      Returned (None, Some (wrapError ("error open database: " +:+ Error e) e))
        (log (Ev (sql_Open "mysql" (mysql.dsn cfg)) (fail e)) w)
  | ok d =>
      let w4 :=
        log (Ev (SetConnMaxLifetime d time_Hour) tt)
          (log (Ev (SetMaxIdleConns d 10) tt)
             (log (Ev (SetMaxOpenConns d 25) tt)
                (log (Ev (sql_Open "mysql" (mysql.dsn cfg)) (ok d)) w))) in
      match env _ (trace w4) (DB_Ping d) with
      | Some e =>
          Returned (None, Some (wrapError ("error verify connect: " +:+ Error e) e))
            (log (Ev (DB_Ping d) (Some e)) w4)
      | None =>
          let h := fresh (dom (mysqls w)) in
          Returned (Some h, None)
            (put_mysql h {| my_db := Some d |} (log (Ev (DB_Ping d) None) w4))
      end
  end.
Proof.
  unfold mysql.NewMySqlDB. generalize (mysql.dsn cfg) as text. intros text. simpl.
  destruct (env _ (trace w) (sql_Open "mysql" text)) as [d|e]; simpl;
    [|error_text].
  units.
  match goal with |- context [env _ ?tr (DB_Ping d)] => destruct (env _ tr (DB_Ping d)) end;
    error_text.
Qed.

Lemma NewSQLiteDB_run dbPath w :
  run env (sqlite.NewSQLiteDB dbPath) w =
  match env _ (trace w) (sql_Open "sqlite" dbPath) with
  | fail e =>
      Returned (None, Some (wrapError ("failed to open database: " +:+ Error e) e))
        (log (Ev (sql_Open "sqlite" dbPath) (fail e)) w)
  | ok d =>
      let w4 :=
        log (Ev (SetConnMaxLifetime d time_Hour) tt)
          (log (Ev (SetMaxIdleConns d 1) tt)
             (log (Ev (SetMaxOpenConns d 1) tt)
                (log (Ev (sql_Open "sqlite" dbPath) (ok d)) w))) in
      match env _ (trace w4) (DB_Ping d) with
      | Some e =>
          Returned (None, Some (wrapError ("database ping failed: " +:+ Error e) e))
            (log (Ev (DB_Ping d) (Some e)) w4)
      | None =>
          let w5 := log (Ev (DB_Ping d) None) w4 in
          let pragma := DB_Exec d "PRAGMA foreign_keys = ON;" [] in
          match env _ (trace w5) pragma with
          | fail e =>
              Returned (None, Some (wrapError ("failed to enable foreign keys: " +:+ Error e) e))
                (log (Ev pragma (fail e)) w5)
          | ok res =>
              let s := fresh (dom (sqlites w)) in
              Returned (Some s, None)
                (put_sqlite s {| db := Some d; path := dbPath; mu := false |}
                   (log (Ev pragma (ok res)) w5))
          end
      end
  end.
Proof.
  unfold sqlite.NewSQLiteDB. simpl.
  destruct (env _ (trace w) (sql_Open "sqlite" dbPath)) as [d|e]; simpl;
    [|error_text].
  units.
  match goal with |- context [env _ ?tr (DB_Ping d)] => destruct (env _ tr (DB_Ping d)) end;
    simpl; [error_text|].
  match goal with |- context [env _ ?tr (DB_Exec d ?q ?a)] =>
    destruct (env _ tr (DB_Exec d q a)) end; error_text.
Qed.



(** C6.  On a handle that holds a pool, [MySqlDB.Exec] makes one library
    call, [db.Exec(query, args...)].  If that fails with [e] it returns 0 and
    an error "error execute: ..." wrapping [e]; if reading the affected rows
    fails with [e] it returns 0 and an error "error fetch rows affected: ..."
    wrapping [e]; otherwise it returns the count reported and a nil error. *)
Theorem mysql_Exec_result w h d query args :
  mysqls w !! h = Some {| my_db := Some d |} ->
  let r := env _ (trace w) (DB_Exec d query args) in
  let w' := log (Ev (DB_Exec d query args) r) w in
  run env (mysql.Exec h query args) w =
  match r with
  | fail e => Returned (0, Some (wrapError ("error execute: " +:+ Error e) e)) w'
  | ok res =>
      match RowsAffected res with
      | (_, Some e) =>
          Returned (0, Some (wrapError ("error fetch rows affected: " +:+ Error e) e)) w'
      | (n, None) => Returned (n, None) w'
      end
  end.
Proof.
  intros Hh. unfold mysql.Exec. simpl. rewrite Hh. simpl.
  destruct (env _ (trace w) (DB_Exec d query args)) as [res|e]; simpl; [|error_text].
  destruct (RowsAffected res) as [n [e|]]; error_text.
Qed.

(** Neither constructor ever calls [Close], whatever it returns. *)
Lemma NewMySqlDB_never_closes cfg w :
  exists r w',
    run env (mysql.NewMySqlDB cfg) w = Returned r w' /\
    forall d, closed_in (trace w') d = closed_in (trace w) d.
Proof.
  rewrite NewMySqlDB_run.
  destruct (env _ (trace w) (sql_Open "mysql" (mysql.dsn cfg))) as [d|e]; simpl.
  - match goal with |- context [env _ ?tr (DB_Ping d)] => destruct (env _ tr (DB_Ping d)) end;
      do 2 eexists; (split; [reflexivity|]); intros d'; simpl;
      rewrite !closed_in_app; simpl; by rewrite !orb_false_r.
  - do 2 eexists. split; [reflexivity|]. intros d'. simpl.
    rewrite closed_in_app. simpl. by rewrite orb_false_r.
Qed.

Lemma NewSQLiteDB_never_closes dbPath w :
  exists r w',
    run env (sqlite.NewSQLiteDB dbPath) w = Returned r w' /\
    forall d, closed_in (trace w') d = closed_in (trace w) d.
Proof.
  rewrite NewSQLiteDB_run.
  destruct (env _ (trace w) (sql_Open "sqlite" dbPath)) as [d|e]; simpl.
  - match goal with |- context [env _ ?tr (DB_Ping d)] => destruct (env _ tr (DB_Ping d)) end.
    + do 2 eexists. split; [reflexivity|]. intros d'. simpl.
      rewrite !closed_in_app. simpl. by rewrite !orb_false_r.
    + match goal with |- context [env _ ?tr (DB_Exec d ?q ?a)] =>
        destruct (env _ tr (DB_Exec d q a)) end;
        do 2 eexists; (split; [reflexivity|]); intros d'; simpl;
        rewrite !closed_in_app; simpl; by rewrite !orb_false_r.
  - do 2 eexists. split; [reflexivity|]. intros d'. simpl.
    rewrite closed_in_app. simpl. by rewrite orb_false_r.
Qed.

End Sequential.

(** *** Several goroutines: the mutex serializes the library calls *)

Section Concurrent.
Variable env : Env.

Lemma disciplined_bind {A B} s (p : prog A) (f : A -> prog B) : forall held,
  disciplined s held p ->
  (forall a, disciplined s false (f a)) ->
  disciplined s held (bind p f).
Proof.
  induction p as [a | msg | R a k IH]; intros held Hp Hf; simpl in *.
  - subst held. apply Hf.
  - assumption.
  - destruct a; simpl in *; intuition auto.
Qed.

Ltac discipline :=
  simpl;
  repeat (match goal with
          | |- _ /\ _ => split
          | |- forall _ : option _, _ => intros [?|]
          | |- forall _, _ => intros ?
          | |- _ = _ => reflexivity
          end; simpl).

Lemma invoke_disciplined s m : disciplined s false (sqlite_client.invoke s m).
Proof. destruct m; discipline. Qed.

Lemma invoke_all_disciplined s ms : disciplined s false (sqlite_client.invoke_all s ms).
Proof.
  induction ms as [|m ms IH]; simpl; [reflexivity|].
  apply disciplined_bind; [apply invoke_disciplined|].
  intros a. apply disciplined_bind; [exact IH|]. intros l. reflexivity.
Qed.

Lemma inv_update {A} s holder holder' (cfg : config A) i t t' w' :
  threads cfg !! i = Some t ->
  is_Some (sqlites w' !! s) ->
  locked w' s = match holder' with Some _ => true | None => false end ->
  (forall j, holder' = Some j -> j = i \/ holder = Some j) ->
  thread_ok s (is_holder holder' i) t' ->
  (forall j, j <> i -> is_holder holder' j = is_holder holder j) ->
  inv s holder cfg ->
  inv s holder' {| world := w'; threads := <[i := t']> (threads cfg) |}.
Proof.
  intros Hi Hs Hl Hh Hok Hother (_ & _ & Hlive & Hall).
  assert (Hlt : (i < length (threads cfg))%nat) by (eapply lookup_lt_Some; eassumption).
  split; [exact Hs|]. split; [exact Hl|]. split.
  - intros j Hj. simpl. apply lookup_lt_is_Some. rewrite length_insert.
    destruct (Hh j Hj) as [->|Hj']; [assumption|].
    apply lookup_lt_is_Some. by apply Hlive.
  - intros j tj Hj. simpl in Hj. destruct (decide (j = i)) as [->|Hne].
    + rewrite list_lookup_insert_eq in Hj by assumption.
      injection Hj as <-. exact Hok.
    + rewrite list_lookup_insert_ne in Hj by congruence.
      rewrite Hother by assumption. by apply Hall.
Qed.

Lemma is_holder_true holder i : is_holder holder i = true -> holder = Some i.
Proof.
  destruct holder as [j|]; simpl; [|discriminate].
  intros H. apply Nat.eqb_eq in H. by subst.
Qed.

Lemma is_holder_self i : is_holder (Some i) i = true.
Proof. simpl. apply Nat.eqb_refl. Qed.

Lemma is_holder_other i j : j <> i -> is_holder (Some i) j = false.
Proof. intros H. simpl. by apply Nat.eqb_neq. Qed.

Lemma schedule_inv {A} s i holder (cfg : config A) :
  inv s holder cfg -> exists holder', inv s holder' (schedule env i cfg).
Proof.
  intros Hinv. pose proof Hinv as (Hs & Hl & Hlive & Hall). unfold schedule.
  destruct (threads cfg !! i) as [t|] eqn:Hi; [|by exists holder].
  destruct (advance env t (world cfg)) as [[t' w']|] eqn:Ha; [|by exists holder].
  pose proof (Hall i t Hi) as Hok. destruct Hs as [o Ho].
  unfold locked in Hl. rewrite Ho in Hl.
  destruct t as [p | R c k].
  - destruct p as [a | msg | R a k]; simpl in Ha; try discriminate.
    destruct a; simpl in Ha, Hok; try contradiction.
    + (* entering a library call *)
      injection Ha as <- <-. destruct Hok as [Hh Hk]. exists holder.
      apply (inv_update s holder holder cfg i _ _ _ Hi); [eauto | | auto | | auto | exact Hinv].
      * unfold locked. by rewrite Ho.
      * simpl. by rewrite Hh.
    + (* s.db *)
      destruct Hok as (-> & Hh & Hk). rewrite Ho in Ha. injection Ha as <- <-.
      exists holder.
      apply (inv_update s holder holder cfg i _ _ _ Hi); [eauto | | auto | | auto | exact Hinv].
      * unfold locked. by rewrite Ho.
      * simpl. rewrite Hh. apply Hk.
    + (* s.db = v *)
      destruct Hok as (-> & Hh & Hk). rewrite Ho in Ha. injection Ha as <- <-.
      exists holder.
      apply (inv_update s holder holder cfg i _ _ _ Hi); [ | | auto | | auto | exact Hinv].
      * simpl. rewrite lookup_insert_eq. eauto.
      * unfold locked. simpl. by rewrite lookup_insert_eq.
      * simpl. by rewrite Hh.
    + (* Lock *)
      destruct Hok as (-> & Hh & Hk). rewrite Ho in Ha.
      destruct (mu o) eqn:Hmu; [discriminate|]. injection Ha as <- <-.
      destruct holder as [j|]; [discriminate|].
      exists (Some i).
      apply (inv_update s None (Some i) cfg i _ _ _ Hi); [ | | | | | exact Hinv].
      * simpl. rewrite lookup_insert_eq. eauto.
      * unfold locked. simpl. by rewrite lookup_insert_eq.
      * intros j Hj. left. congruence.
      * rewrite is_holder_self. exact Hk.
      * intros j Hj. by rewrite is_holder_other.
    + (* Unlock *)
      destruct Hok as (-> & Hh & Hk). rewrite Ho in Ha.
      apply is_holder_true in Hh. subst holder.
      rewrite Hl in Ha. injection Ha as <- <-.
      exists None.
      apply (inv_update s (Some i) None cfg i _ _ _ Hi); [ | | | | | exact Hinv].
      * simpl. rewrite lookup_insert_eq. eauto.
      * unfold locked. simpl. by rewrite lookup_insert_eq.
      * intros j Hj. discriminate.
      * exact Hk.
      * intros j Hj. by rewrite is_holder_other.
  - (* returning from a library call *)
    simpl in Ha. injection Ha as <- <-. destruct Hok as [Hh Hk].
    exists holder.
    apply (inv_update s holder holder cfg i _ _ _ Hi); [ | | auto | | auto | exact Hinv].
    + simpl. eauto.
    + unfold locked. simpl. by rewrite Ho.
    + simpl. rewrite Hh. apply Hk.
Qed.

Lemma exec_inv {A} s sched : forall holder (cfg : config A),
  inv s holder cfg -> exists holder', inv s holder' (exec env sched cfg).
Proof.
  induction sched as [|i sched IH]; intros holder cfg Hinv; simpl.
  - by exists holder.
  - destruct (schedule_inv s i holder cfg Hinv) as [holder' H']. by apply (IH holder').
Qed.

Lemma spawn_inv s clients w :
  (exists o, sqlites w !! s = Some o /\ mu o = false) ->
  inv s None (spawn s clients w).
Proof.
  intros (o & Ho & Hmu). split; [simpl; eauto|]. split; [|split].
  - unfold locked. simpl. by rewrite Ho.
  - intros i Hi. discriminate.
  - intros i t Hi. simpl in Hi. rewrite list_lookup_fmap in Hi.
    destruct (clients !! i) as [ms|]; [|discriminate]. injection Hi as <-.
    simpl. apply invoke_all_disciplined.
Qed.

Lemma filter_none {T} (P : T -> bool) (l : list T) :
  (forall j b, l !! j = Some b -> P b = false) -> List.filter P l = [].
Proof.
  induction l as [|a l IH]; intros H; simpl; [reflexivity|].
  rewrite (H 0%nat a eq_refl). apply IH. intros j b Hj. exact (H (S j) b Hj).
Qed.

Lemma at_most_one {T} (P : T -> bool) (l : list T) :
  (forall i j a b, l !! i = Some a -> l !! j = Some b -> P a = true -> P b = true -> i = j) ->
  (length (List.filter P l) <= 1)%nat.
Proof.
  induction l as [|a l IH]; intros H; simpl; [lia|].
  destruct (P a) eqn:Pa.
  - rewrite filter_none; [simpl; lia|].
    intros j b Hj. destruct (P b) eqn:Pb; [|reflexivity].
    discriminate (H 0%nat (S j) a b eq_refl Hj Pa Pb).
  - apply IH. intros i j x y Hi Hj Px Py.
    by injection (H (S i) (S j) x y Hi Hj Px Py).
Qed.

(** C9.  Goroutines that call the methods of one SQLite handle, each any
    number of times, interleaved in any way.  At every moment the mutex is
    locked exactly when one of the goroutines holds it, and that goroutine
    has not finished: whoever locked the mutex unlocks it before returning
    or panicking.  A goroutine that touches the connection (is inside a
    library call, or about to make one, or about to read or write the [db]
    field) is the one that holds the mutex, from before the check of [db]
    until after the library call has returned.  So at most one goroutine
    touches the connection at any time. *)
Theorem sqlite_calls_are_serialized s w clients sched :
  (exists o, sqlites w !! s = Some o /\ mu o = false) ->
  let cfg := exec env sched (spawn s clients w) in
  exists holder : option nat,
    locked (world cfg) s = match holder with Some _ => true | None => false end /\
    (forall i, holder = Some i ->
       exists t, threads cfg !! i = Some t /\ finished t = false) /\
    (forall i t, threads cfg !! i = Some t -> touches t = true -> holder = Some i) /\
    (length (List.filter touches (threads cfg)) <= 1)%nat.
Proof.
  intros Hw cfg.
  destruct (exec_inv s sched None _ (spawn_inv s clients w Hw))
    as (holder & _ & Hl & Hlive & Hall).
  fold cfg in Hl, Hlive, Hall.
  assert (Hin : forall i t, threads cfg !! i = Some t -> touches t = true -> holder = Some i).
  { intros i t Hi Hc. specialize (Hall i t Hi). apply is_holder_true.
    destruct t as [[a|msg|R a k]|R c k]; simpl in Hc; try discriminate.
    - destruct a; try discriminate; simpl in Hall; tauto.
    - simpl in Hall. tauto. }
  exists holder. split; [exact Hl|]. split; [|split; [exact Hin|]].
  - intros i ->. destruct (Hlive i eq_refl) as [t Hi]. exists t. split; [exact Hi|].
    specialize (Hall i t Hi). rewrite is_holder_self in Hall.
    destruct t as [[a|msg|R a k]|R c k]; simpl in Hall; try discriminate; reflexivity.
  - apply at_most_one. intros i j a b Hi Hj Ha Hb.
    pose proof (Hin i a Hi Ha) as H1. pose proof (Hin j b Hj Hb) as H2. congruence.
Qed.

(** A goroutine scheduled alone does what [run] says. *)
Lemma run_exec {A} (p : prog A) : forall w a w',
  run env p w = Returned a w' ->
  exists n,
    exec env (repeat 0%nat n) {| world := w; threads := [Idle p] |}
    = {| world := w'; threads := [Idle (Ret a)] |}.
Proof.
  induction p as [a0 | msg | R a k IH]; intros w a' w' H; simpl in H.
  - injection H as <- <-. by exists 0%nat.
  - discriminate.
  - destruct (step env a w) as [r w1 | |] eqn:E; try discriminate.
    destruct (IH r w1 a' w' H) as [n Hn].
    destruct (call_of a) as [c|] eqn:Hc.
    + exists (S (S n)). simpl. unfold schedule at 2. simpl. rewrite Hc.
      unfold schedule at 1. simpl.
      destruct a; try discriminate. injection Hc as <-. simpl in E.
      injection E as <- <-. exact Hn.
    + exists (S n). simpl. unfold schedule at 1. simpl. rewrite Hc, E. exact Hn.
Qed.

End Concurrent.

(** *** The handles on concrete inputs *)

Lemma sql_Close_idempotent srv : Close_idempotent (sql srv).
Proof. intros tr d _. reflexivity. Qed.


(** [Close], [Exec] and [QueryRow] on the SQLite handle of [one_sqlite]. *)
Lemma sqlite_calls_after_Close_witness :
  run (sql up) (sqlite.Close 0%nat) one_sqlite = Returned None closed_sqlite /\
  run (sql up) (sqlite.Exec 0%nat "DELETE FROM sessions" []) closed_sqlite
  = Returned (None, Some (errorString "database not connected")) closed_sqlite /\
  run (sql up) (sqlite.QueryRow 0%nat "SELECT 1" []) closed_sqlite = Returned None closed_sqlite.
Proof.
  assert (H : run (sql up) (sqlite.Close 0%nat) one_sqlite = Returned None closed_sqlite)
    by (vm_compute; reflexivity).
  split; [exact H|].
  destruct (sqlite_calls_after_Close (sql up) 0%nat one_sqlite None closed_sqlite H)
    as (_ & HExec & _ & _ & _ & _ & _ & HRow).
  split; [apply HExec | apply HRow].
Defined.

(** C1, the claim as stated, fails for [QueryRowContext]: called after
    [Close] it returns a nil row and no error at all. *)
Lemma QueryRowContext_after_Close_no_error :
  run (sql up) (sqlite.Close 0%nat) one_sqlite = Returned None closed_sqlite /\
  run (sql up) (sqlite.QueryRowContext 0%nat Background "SELECT 1" []) closed_sqlite
  = Returned None closed_sqlite /\
  ~ (forall e w' a w'',
        run (sql up) (sqlite.Close 0%nat) one_sqlite = Returned e w' ->
        run (sql up)
          (sqlite_client.invoke 0%nat
             (sqlite_client.mQueryRowContext Background "SELECT 1" [])) w'
        = Returned a w'' ->
        sqlite_client.returned_error a = Some (errorString "database not connected")).
Proof.
  assert (H1 : run (sql up) (sqlite.Close 0%nat) one_sqlite = Returned None closed_sqlite)
    by (vm_compute; reflexivity).
  split; [exact H1|]. split; [vm_compute; reflexivity|].
  intros H.
  specialize (H None closed_sqlite (sqlite_client.aQueryRow None) closed_sqlite H1).
  assert (H2 : run (sql up)
                 (sqlite_client.invoke 0%nat
                    (sqlite_client.mQueryRowContext Background "SELECT 1" [])) closed_sqlite
               = Returned (sqlite_client.aQueryRow None) closed_sqlite)
    by (vm_compute; reflexivity).
  specialize (H H2). discriminate H.
Qed.

(** A second [Close] on the two closed handles, over [sql]. *)
Lemma Close_twice_witness :
  run (sql up) (sqlite.Close 0%nat) closed_sqlite = Returned None closed_sqlite /\
  mysqls closed_mysql !! 0%nat = Some {| my_db := Some 0%nat |} /\
  run (sql up) (mysql.Close 0%nat) closed_mysql
  = Returned None (log (Ev (DB_Close 0%nat) None) closed_mysql).
Proof.
  destruct (Close_twice (sql up)) as (Hs & Hm & _).
  split.
  - apply (Hs 0%nat one_sqlite None). vm_compute; reflexivity.
  - assert (Hh : mysqls one_mysql !! 0%nat = Some {| my_db := Some 0%nat |})
      by (vm_compute; reflexivity).
    assert (H : run (sql up) (mysql.Close 0%nat) one_mysql = Returned None closed_mysql)
      by (vm_compute; reflexivity).
    destruct (Hm 0%nat 0%nat one_mysql None closed_mysql Hh H) as (H1 & H2 & _).
    split; [exact H1 | exact H2].
Defined.

(** C2, the claim as stated, fails on the MySQL handle: after a first
    [Close] the connection is not nil, and the second [Close] is not a no-op
    but one more call of the pool's [Close]. *)
Lemma mysql_second_Close_calls_pool :
  run (sql up) (mysql.Close 0%nat) one_mysql = Returned None closed_mysql /\
  mysqls closed_mysql !! 0%nat = Some {| my_db := Some 0%nat |} /\
  run (sql up) (mysql.Close 0%nat) closed_mysql
  = Returned None (log (Ev (DB_Close 0%nat) None) closed_mysql) /\
  ~ (forall e w',
        run (sql up) (mysql.Close 0%nat) one_mysql = Returned e w' ->
        mysqls w' !! 0%nat = Some {| my_db := None |} /\
        run (sql up) (mysql.Close 0%nat) w' = Returned None w').
Proof.
  assert (H1 : run (sql up) (mysql.Close 0%nat) one_mysql = Returned None closed_mysql)
    by (vm_compute; reflexivity).
  split; [exact H1|]. split; [vm_compute; reflexivity|]. split; [vm_compute; reflexivity|].
  intros H. destruct (H None closed_mysql H1) as [H2 _].
  vm_compute in H2. discriminate H2.
Qed.





(** [Exec] against a server that is up, and against one that is not. *)
Lemma mysql_Exec_result_witness :
  run (sql up) (mysql.Exec 0%nat "DELETE FROM sessions WHERE id = ?" [VInt 7]) one_mysql
  = Returned (1, None)
      (log (Ev (DB_Exec 0%nat "DELETE FROM sessions WHERE id = ?" [VInt 7])
              (ok {| LastInsertId := (0, None); RowsAffected := (1, None) |}))
         one_mysql) /\
  run (sql unreachable) (mysql.Exec 0%nat "DELETE FROM sessions" []) one_mysql
  = Returned
      (0, Some (wrapError "error execute: dial tcp 10.0.0.1:3306: connect: no route to host"
                  (errorString "dial tcp 10.0.0.1:3306: connect: no route to host")))
      (log (Ev (DB_Exec 0%nat "DELETE FROM sessions" [])
              (fail (errorString "dial tcp 10.0.0.1:3306: connect: no route to host")))
         one_mysql).
Proof.
  assert (Hh : mysqls one_mysql !! 0%nat = Some {| my_db := Some 0%nat |})
    by (vm_compute; reflexivity).
  split.
  - exact (mysql_Exec_result (sql up) one_mysql 0%nat 0%nat
             "DELETE FROM sessions WHERE id = ?" [VInt 7] Hh).
  - exact (mysql_Exec_result (sql unreachable) one_mysql 0%nat 0%nat
             "DELETE FROM sessions" [] Hh).
Defined.

(** C3.  With a host that does not answer, [NewMySqlDB] returns no handle
    and the error of the failed [Ping], and with a path that cannot be
    opened so does [NewSQLiteDB]; in both the pool that [sql.Open] had
    returned is dropped without [Close] being called on it. *)
Theorem constructors_leave_pool_open :
  (exists w',
      run (sql unreachable) (mysql.NewMySqlDB mysql.unreachable_cfg) empty_world
      = Returned
          (None,
           Some (wrapError "error verify connect: dial tcp 10.0.0.1:3306: connect: no route to host"
                   (errorString "dial tcp 10.0.0.1:3306: connect: no route to host")))
          w' /\
      trace w' =
      [Ev (sql_Open "mysql"
             "epdg:secret@tcp(10.0.0.1:3306)/epdg?charset=utf8mb4&parseTime=True&loc=Local")
          (ok 0%nat);
       Ev (SetMaxOpenConns 0%nat 25) tt;
       Ev (SetMaxIdleConns 0%nat 10) tt;
       Ev (SetConnMaxLifetime 0%nat 3600000000000) tt;
       Ev (DB_Ping 0%nat) (Some (errorString "dial tcp 10.0.0.1:3306: connect: no route to host"))] /\
      closed_in (trace w') 0%nat = false) /\
  (exists w',
      run (sql no_such_file) (sqlite.NewSQLiteDB "/no/such/dir/epdg.db") empty_world
      = Returned
          (None,
           Some (wrapError "database ping failed: unable to open database file: out of memory (14)"
                   (errorString "unable to open database file: out of memory (14)")))
          w' /\
      trace w' =
      [Ev (sql_Open "sqlite" "/no/such/dir/epdg.db") (ok 0%nat);
       Ev (SetMaxOpenConns 0%nat 1) tt;
       Ev (SetMaxIdleConns 0%nat 1) tt;
       Ev (SetConnMaxLifetime 0%nat 3600000000000) tt;
       Ev (DB_Ping 0%nat) (Some (errorString "unable to open database file: out of memory (14)"))] /\
      closed_in (trace w') 0%nat = false).
Proof.
  split; eexists; (split; [vm_compute; reflexivity|]); split; vm_compute; reflexivity.
Qed.

(** Goroutine 0 has entered [db.ExecContext]; goroutine 1 has been scheduled
    twice since and is still waiting at [Lock]. *)
Example first_in_call :
  let cfg := exec (sql up) [0; 0; 0; 0; 1; 1]%nat (spawn 0%nat two_clients one_sqlite) in
  map in_call (threads cfg) = [true; false] /\
  map touches (threads cfg) = [true; false] /\
  locked (world cfg) 0%nat = true /\
  trace (world cfg) = trace one_sqlite.
Proof. vm_compute. repeat split. Qed.

(** Both goroutines run to the end: three library calls were made after
    [sql.Open], and the mutex is free. *)
Example both_done :
  let cfg :=
    exec (sql up)
      (([0; 0; 0; 0; 1; 1; 0; 0; 0; 0; 0] ++ repeat 1 20)%nat)%list
      (spawn 0%nat two_clients one_sqlite) in
  map finished (threads cfg) = [true; true] /\
  locked (world cfg) 0%nat = false /\
  length (trace (world cfg)) = 4%nat.
Proof. vm_compute. repeat split. Qed.

(** The two goroutines of [two_clients] at the moment of [first_in_call]. *)
Lemma sqlite_calls_are_serialized_witness :
  let cfg := exec (sql up) [0; 0; 0; 0; 1; 1]%nat (spawn 0%nat two_clients one_sqlite) in
  exists holder : option nat,
    locked (world cfg) 0%nat = match holder with Some _ => true | None => false end /\
    (forall i, holder = Some i ->
       exists t, threads cfg !! i = Some t /\ finished t = false) /\
    (forall i t, threads cfg !! i = Some t -> touches t = true -> holder = Some i) /\
    (length (List.filter touches (threads cfg)) <= 1)%nat.
Proof.
  apply (sqlite_calls_are_serialized (sql up) 0%nat one_sqlite two_clients [0; 0; 0; 0; 1; 1]%nat).
  exists {| db := Some 0%nat; path := "epdg.db"; mu := false |}.
  split; [vm_compute; reflexivity | reflexivity].
Defined.

(** ** The logger *)

Section LoggerFacts.

Variable os_MkdirAll : list logger.os_event -> string -> Z -> option error.
Variable filepath_Dir : string -> string.

Lemma mapLogLevel_known :
  logger.mapLogLevel "debug" = zapcore.DebugLevel /\
  logger.mapLogLevel "info" = zapcore.InfoLevel /\
  logger.mapLogLevel "warn" = zapcore.WarnLevel /\
  logger.mapLogLevel "error" = zapcore.ErrorLevel /\
  logger.mapLogLevel "panic" = zapcore.PanicLevel /\
  logger.mapLogLevel "fatal" = zapcore.FatalLevel.
Proof. repeat split. Qed.


(** [mapLogLevel] never answers [InvalidLevel]. *)
Lemma mapLogLevel_valid level : logger.mapLogLevel level <> zapcore.InvalidLevel.
Proof.
  unfold logger.mapLogLevel. repeat case_match; discriminate.
Qed.

Lemma Init_run cfg st :
  logger.Init os_MkdirAll filepath_Dir cfg st =
  let lvl := logger.mapLogLevel (logger.Level cfg) in
  let logger := zap.New (logger.cores_of cfg lvl) [zap.AddCaller; zap.AddCallerSkip 1] in
  if String.eqb (logger.Filename cfg) "" then
    (None, {| logger.globalLogger := Some (zap.Sugar logger);
              logger.effects := (logger.effects st ++ [logger.Sync logger])%list |})
  else
    let dir := filepath_Dir (logger.Filename cfg) in
    let err := os_MkdirAll (logger.effects st) dir 493 in
    match err with
    | Some e => (Some e, logger.record (logger.MkdirAll dir 493 err) st)
    | None =>
        (None, {| logger.globalLogger := Some (zap.Sugar logger);
                  logger.effects :=
                    (logger.effects st ++ [logger.MkdirAll dir 493 None; logger.Sync logger])%list |})
    end.
Proof.
  unfold logger.Init, logger.cores_of.
  pose proof (mapLogLevel_valid (logger.Level cfg)) as Hv.
  apply Z.eqb_neq in Hv. rewrite Hv. simpl.
  destruct (String.eqb (logger.Filename cfg) ""); simpl.
  - destruct (logger.Console cfg); reflexivity.
  - destruct (os_MkdirAll _ _ _); simpl; [reflexivity|].
    rewrite <- app_assoc. destruct (logger.Console cfg); reflexivity.
Qed.


(** C10.  [Init] returns an error only when a file name is set and creating
    its directory failed, and then the global logger is the one from before
    the call; when [Init] returns nil the global logger is the new one, built
    from the configuration alone. *)
Theorem Init_atomic cfg st :
  match logger.Init os_MkdirAll filepath_Dir cfg st with
  | (Some err, st') =>
      logger.globalLogger st' = logger.globalLogger st /\
      logger.Filename cfg <> "" /\
      os_MkdirAll (logger.effects st) (filepath_Dir (logger.Filename cfg)) 493 = Some err
  | (None, st') =>
      logger.globalLogger st' =
        Some (zap.Sugar
                (zap.New (logger.cores_of cfg (logger.mapLogLevel (logger.Level cfg)))
                   [zap.AddCaller; zap.AddCallerSkip 1])) /\
      (logger.Filename cfg = "" \/
       os_MkdirAll (logger.effects st) (filepath_Dir (logger.Filename cfg)) 493 = None)
  end.
Proof.
  rewrite Init_run. simpl.
  destruct (String.eqb (logger.Filename cfg) "") eqn:Hf.
  - apply String.eqb_eq in Hf. auto.
  - apply String.eqb_neq in Hf.
    destruct (os_MkdirAll _ _ _) eqn:Hm; simpl; auto.
Qed.

End LoggerFacts.


(** ** More of the two handles *)

Section Handles.

Variable env : Env.

Ltac released :=
  unfold put_sqlite, log; simpl;
  rewrite ?insert_insert_eq; rewrite ?relock_id by assumption.



(** A method of an open SQLite handle with a free mutex. *)
Lemma ExecContext_open w s o d ctx query args :
  sqlites w !! s = Some o -> mu o = false -> db o = Some d ->
  run env (sqlite.ExecContext s ctx query args) w =
  let r := env _ (trace w) (DB_ExecContext d ctx query args) in
  Returned (pair_of r) (log (Ev (DB_ExecContext d ctx query args) r) w).
Proof.
  intros Ho Hmu Hdb. unfold sqlite.ExecContext. simpl. rewrite Ho, Hmu. simpl.
  rewrite lookup_insert_eq. simpl. rewrite Hdb. simpl.
  rewrite lookup_insert_eq. simpl. rewrite Hdb. simpl.
  rewrite lookup_insert_eq. simpl. released. by rewrite insert_id.
Qed.

Lemma QueryContext_open w s o d ctx query args :
  sqlites w !! s = Some o -> mu o = false -> db o = Some d ->
  run env (sqlite.QueryContext s ctx query args) w =
  let r := env _ (trace w) (DB_QueryContext d ctx query args) in
  Returned (pair_of r) (log (Ev (DB_QueryContext d ctx query args) r) w).
Proof.
  intros Ho Hmu Hdb. unfold sqlite.QueryContext. simpl. rewrite Ho, Hmu. simpl.
  rewrite lookup_insert_eq. simpl. rewrite Hdb. simpl.
  rewrite lookup_insert_eq. simpl. rewrite Hdb. simpl.
  rewrite lookup_insert_eq. simpl. released. by rewrite insert_id.
Qed.

Lemma QueryRowContext_open w s o d ctx query args :
  sqlites w !! s = Some o -> mu o = false -> db o = Some d ->
  run env (sqlite.QueryRowContext s ctx query args) w =
  let r := env _ (trace w) (DB_QueryRowContext d ctx query args) in
  Returned (Some r) (log (Ev (DB_QueryRowContext d ctx query args) r) w).
Proof.
  intros Ho Hmu Hdb. unfold sqlite.QueryRowContext. simpl. rewrite Ho, Hmu. simpl.
  rewrite lookup_insert_eq. simpl. rewrite Hdb. simpl.
  rewrite lookup_insert_eq. simpl. rewrite Hdb. simpl.
  rewrite lookup_insert_eq. simpl. released. by rewrite insert_id.
Qed.

Lemma BeginTxContext_open w s o d ctx opts :
  sqlites w !! s = Some o -> mu o = false -> db o = Some d ->
  run env (sqlite.BeginTxContext s ctx opts) w =
  let r := env _ (trace w) (DB_BeginTx d ctx opts) in
  Returned (pair_of r) (log (Ev (DB_BeginTx d ctx opts) r) w).
Proof.
  intros Ho Hmu Hdb. unfold sqlite.BeginTxContext. simpl. rewrite Ho, Hmu. simpl.
  rewrite lookup_insert_eq. simpl. rewrite Hdb. simpl.
  rewrite lookup_insert_eq. simpl. rewrite Hdb. simpl.
  rewrite lookup_insert_eq. simpl. released. by rewrite insert_id.
Qed.




(** X1.  On an open SQLite handle with a free mutex every query method makes
    exactly one library call, on the connection of the handle and with the
    arguments it was given ([context.Background] and nil options for the
    variants without a context), and returns the answer of the library as it
    is: an error is not wrapped.  The handle is left as it was. *)
Theorem sqlite_open_calls w s o d :
  sqlites w !! s = Some o -> mu o = false -> db o = Some d ->
  (forall ctx q a,
      run env (sqlite.ExecContext s ctx q a) w =
      let r := env _ (trace w) (DB_ExecContext d ctx q a) in
      Returned (pair_of r) (log (Ev (DB_ExecContext d ctx q a) r) w)) /\
  (forall q a,
      run env (sqlite.Exec s q a) w =
      let r := env _ (trace w) (DB_ExecContext d Background q a) in
      Returned (pair_of r) (log (Ev (DB_ExecContext d Background q a) r) w)) /\
  (forall ctx q a,
      run env (sqlite.QueryContext s ctx q a) w =
      let r := env _ (trace w) (DB_QueryContext d ctx q a) in
      Returned (pair_of r) (log (Ev (DB_QueryContext d ctx q a) r) w)) /\
  (forall q a,
      run env (sqlite.Query s q a) w =
      let r := env _ (trace w) (DB_QueryContext d Background q a) in
      Returned (pair_of r) (log (Ev (DB_QueryContext d Background q a) r) w)) /\
  (forall ctx q a,
      run env (sqlite.QueryRowContext s ctx q a) w =
      let r := env _ (trace w) (DB_QueryRowContext d ctx q a) in
      Returned (Some r) (log (Ev (DB_QueryRowContext d ctx q a) r) w)) /\
  (forall q a,
      run env (sqlite.QueryRow s q a) w =
      let r := env _ (trace w) (DB_QueryRowContext d Background q a) in
      Returned (Some r) (log (Ev (DB_QueryRowContext d Background q a) r) w)) /\
  (forall ctx opts,
      run env (sqlite.BeginTxContext s ctx opts) w =
      let r := env _ (trace w) (DB_BeginTx d ctx opts) in
      Returned (pair_of r) (log (Ev (DB_BeginTx d ctx opts) r) w)) /\
  (run env (sqlite.BeginTx s) w =
   let r := env _ (trace w) (DB_BeginTx d Background None) in
   Returned (pair_of r) (log (Ev (DB_BeginTx d Background None) r) w)).
Proof.
  intros Ho Hmu Hdb.
  repeat split; intros; unfold sqlite.Exec, sqlite.Query, sqlite.QueryRow, sqlite.BeginTx.
  - by apply (ExecContext_open _ _ o).
  - by apply (ExecContext_open _ _ o).
  - by apply (QueryContext_open _ _ o).
  - by apply (QueryContext_open _ _ o).
  - by apply (QueryRowContext_open _ _ o).
  - by apply (QueryRowContext_open _ _ o).
  - by apply (BeginTxContext_open _ _ o).
  - by apply (BeginTxContext_open _ _ o).
Qed.

(** X2.  [Close] on an open SQLite handle calls the pool's [Close] once and
    returns its answer as it is; the connection is set to nil whether or not
    that call failed, so the handle is closed afterwards and a second
    [Close] returns nil: an error of closing is reported once. *)
Theorem sqlite_Close_once w s o d :
  sqlites w !! s = Some o -> mu o = false -> db o = Some d ->
  let r := env _ (trace w) (DB_Close d) in
  let w' := after w [Ev (DB_Close d) r] s {| db := None; path := path o; mu := false |} in
  run env (sqlite.Close s) w = Returned r w' /\
  run env (sqlite.Close s) w' = Returned None w'.
Proof.
  intros Ho Hmu Hdb r w'.
  assert (H : run env (sqlite.Close s) w = Returned r w')
    by (rewrite (Close_run _ _ _ _ Ho Hmu), Hdb; reflexivity).
  split; [exact H|]. apply Close_closed. eapply Close_leaves_closed. exact H.
Qed.



(** The MySQL handle. *)




(** X5.  On a MySQL handle that holds a pool, [Query], [BeginTransaction] and
    [Prepare] make one library call each and return either the value with a
    nil error, or a nil value with an error that carries the name of the
    step ("error query: ", "error begin transaction: ", "error prepare: ")
    before the library's message and unwraps to the library's error. *)
Theorem mysql_value_or_error w h d :
  mysqls w !! h = Some {| my_db := Some d |} ->
  (forall q a,
      let r := env _ (trace w) (DB_Query d q a) in
      run env (mysql.Query h q a) w =
      Returned
        match r with
        | ok rows => (Some rows, None)
        | fail e => (None, Some (wrapError ("error query: " +:+ Error e) e))
        end
        (log (Ev (DB_Query d q a) r) w)) /\
  (let r := env _ (trace w) (DB_Begin d) in
   run env (mysql.BeginTransaction h) w =
   Returned
     match r with
     | ok t => (Some t, None)
     | fail e => (None, Some (wrapError ("error begin transaction: " +:+ Error e) e))
     end
     (log (Ev (DB_Begin d) r) w)) /\
  (forall q,
      let r := env _ (trace w) (DB_Prepare d q) in
      run env (mysql.Prepare h q) w =
      Returned
        match r with
        | ok st => (Some st, None)
        | fail e => (None, Some (wrapError ("error prepare: " +:+ Error e) e))
        end
        (log (Ev (DB_Prepare d q) r) w)).
Proof.
  intros Hh. repeat split; intros.
  - unfold mysql.Query. simpl. rewrite Hh. simpl.
    destruct (env _ (trace w) (DB_Query d q a)); simpl; [reflexivity|].
    unfold Errorf; simpl; by rewrite append_empty.
  - unfold mysql.BeginTransaction. simpl. rewrite Hh. simpl.
    destruct (env _ (trace w) (DB_Begin d)); simpl; [reflexivity|].
    unfold Errorf; simpl; by rewrite append_empty.
  - unfold mysql.Prepare. simpl. rewrite Hh. simpl.
    destruct (env _ (trace w) (DB_Prepare d q)); simpl; [reflexivity|].
    unfold Errorf; simpl; by rewrite append_empty.
Qed.

(** X6.  On a MySQL handle that holds a pool, [Ping] makes one
    [PingContext] call with the context it was given and returns the
    library's error as it is, without the context the other methods add;
    [QueryRow] makes one [QueryRow] call and returns its row, never nil. *)
Theorem mysql_Ping_QueryRow w h d :
  mysqls w !! h = Some {| my_db := Some d |} ->
  (forall ctx,
      let r := env _ (trace w) (DB_PingContext d ctx) in
      run env (mysql.Ping h ctx) w = Returned r (log (Ev (DB_PingContext d ctx) r) w)) /\
  (forall q a,
      let r := env _ (trace w) (DB_QueryRow d q a) in
      run env (mysql.QueryRow h q a) w = Returned (Some r) (log (Ev (DB_QueryRow d q a) r) w)).
Proof.
  intros Hh. split; intros.
  - unfold mysql.Ping. simpl. by rewrite Hh.
  - unfold mysql.QueryRow. simpl. by rewrite Hh.
Qed.




(** X10.  When [NewMySqlDB] returns an error it returns no handle and leaves
    the handles of the program as they were.  The error names the step that
    failed and unwraps to the library's error: either [sql.Open] failed, and
    then nothing else was called, or [Ping] failed after the three pool
    limits were set. *)
Theorem NewMySqlDB_failure cfg w r err w' :
  run env (mysql.NewMySqlDB cfg) w = Returned (r, Some err) w' ->
  r = None /\ mysqls w' = mysqls w /\ sqlites w' = sqlites w /\
  ((exists e,
       err = wrapError ("error open database: " +:+ Error e) e /\
       trace w' = (trace w ++ [Ev (sql_Open "mysql" (mysql.dsn cfg)) (fail e)])%list) \/
   (exists d e,
       err = wrapError ("error verify connect: " +:+ Error e) e /\
       trace w' =
       (trace w ++
        [Ev (sql_Open "mysql" (mysql.dsn cfg)) (ok d);
         Ev (SetMaxOpenConns d 25) tt;
         Ev (SetMaxIdleConns d 10) tt;
         Ev (SetConnMaxLifetime d time_Hour) tt;
         Ev (DB_Ping d) (Some e)])%list)).
Proof.
  rewrite NewMySqlDB_run.
  destruct (env _ (trace w) (sql_Open "mysql" (mysql.dsn cfg))) as [d|e]; simpl.
  - match goal with |- context [env _ ?tr (DB_Ping d)] =>
      destruct (env _ tr (DB_Ping d)) as [e|] end; [|discriminate].
    intros H. injection H as <- <- <-. repeat split. right. exists d, e.
    split; [reflexivity|]. simpl. by rewrite <- !app_assoc.
  - intros H. injection H as <- <- <-. repeat split. left. by exists e.
Qed.

(** X11.  When [NewSQLiteDB] returns an error it returns no handle and
    leaves the handles of the program as they were.  The error names the
    step that failed and unwraps to the library's error: [sql.Open] failed
    and nothing else was called; or [Ping] failed after the pool limits were
    set; or the PRAGMA failed after a successful [Ping]. *)
Theorem NewSQLiteDB_failure dbPath w r err w' :
  run env (sqlite.NewSQLiteDB dbPath) w = Returned (r, Some err) w' ->
  r = None /\ mysqls w' = mysqls w /\ sqlites w' = sqlites w /\
  ((exists e,
       err = wrapError ("failed to open database: " +:+ Error e) e /\
       trace w' = (trace w ++ [Ev (sql_Open "sqlite" dbPath) (fail e)])%list) \/
   (exists d e,
       err = wrapError ("database ping failed: " +:+ Error e) e /\
       trace w' =
       (trace w ++
        [Ev (sql_Open "sqlite" dbPath) (ok d);
         Ev (SetMaxOpenConns d 1) tt;
         Ev (SetMaxIdleConns d 1) tt;
         Ev (SetConnMaxLifetime d time_Hour) tt;
         Ev (DB_Ping d) (Some e)])%list) \/
   (exists d e,
       err = wrapError ("failed to enable foreign keys: " +:+ Error e) e /\
       trace w' =
       (trace w ++
        [Ev (sql_Open "sqlite" dbPath) (ok d);
         Ev (SetMaxOpenConns d 1) tt;
         Ev (SetMaxIdleConns d 1) tt;
         Ev (SetConnMaxLifetime d time_Hour) tt;
         Ev (DB_Ping d) None;
         Ev (DB_Exec d "PRAGMA foreign_keys = ON;" []) (fail e)])%list)).
Proof.
  rewrite NewSQLiteDB_run.
  destruct (env _ (trace w) (sql_Open "sqlite" dbPath)) as [d|e]; simpl.
  - match goal with |- context [env _ ?tr (DB_Ping d)] =>
      destruct (env _ tr (DB_Ping d)) as [e|] end.
    + intros H. injection H as <- <- <-. repeat split. right. left. exists d, e.
      split; [reflexivity|]. simpl. by rewrite <- !app_assoc.
    + match goal with |- context [env _ ?tr (DB_Exec d ?q ?a)] =>
        destruct (env _ tr (DB_Exec d q a)) as [res|e] end; [discriminate|].
      intros H. injection H as <- <- <-. repeat split. right. right. exists d, e.
      split; [reflexivity|]. simpl. by rewrite <- !app_assoc.
  - intros H. injection H as <- <- <-. repeat split. left. by exists e.
Qed.

Lemma append_assoc3 (a b c : string) : (a +:+ b) +:+ c = a +:+ (b +:+ c).
Proof.
  induction a as [|x a IH]; [reflexivity|].
  change (String x ((a +:+ b) +:+ c) = String x (a +:+ (b +:+ c))). by f_equal.
Qed.

(** X12.  The DSN is put together without escaping: a user name [u:x] with
    password [p] and a user name [u] with password [x:p] give the same DSN,
    and [NewMySqlDB] does the same on both. *)
Theorem dsn_not_escaped cfg u x p w :
  let cfg1 :=
    {| mysql.Username := u +:+ ":" +:+ x; mysql.Password := p;
       mysql.Host := mysql.Host cfg; mysql.Port := mysql.Port cfg;
       mysql.Database := mysql.Database cfg; mysql.Charset := mysql.Charset cfg |} in
  let cfg2 :=
    {| mysql.Username := u; mysql.Password := x +:+ ":" +:+ p;
       mysql.Host := mysql.Host cfg; mysql.Port := mysql.Port cfg;
       mysql.Database := mysql.Database cfg; mysql.Charset := mysql.Charset cfg |} in
  mysql.dsn cfg1 = mysql.dsn cfg2 /\
  run env (mysql.NewMySqlDB cfg1) w = run env (mysql.NewMySqlDB cfg2) w.
Proof.
  intros cfg1 cfg2.
  assert (H : mysql.dsn cfg1 = mysql.dsn cfg2).
  { rewrite !dsn_text. unfold cfg1, cfg2.
    cbn [mysql.Username mysql.Password mysql.Host mysql.Port mysql.Database mysql.Charset].
    by rewrite !append_assoc3. }
  split; [exact H|]. by rewrite !NewMySqlDB_run, H.
Qed.

End Handles.

(** ** More of the goroutines *)

Section Goroutines.

Variable env : Env.








Lemma exec_cons {A} i sched (cfg : config A) :
  exec env (i :: sched) cfg = exec env sched (schedule env i cfg).
Proof. reflexivity. Qed.


Lemma exec_app {A} sched sched' (cfg : config A) :
  exec env (sched ++ sched') cfg = exec env sched' (exec env sched cfg).
Proof. apply fold_left_app. Qed.






(** The connection of a handle under concurrent calls. *)

Lemma only_nil_stores_bind {A B} (p : prog A) (f : A -> prog B) :
  only_nil_stores p -> (forall a, only_nil_stores (f a)) -> only_nil_stores (bind p f).
Proof.
  induction p as [a | msg | R a k IH]; intros Hp Hf; simpl in *; auto.
  destruct a; simpl in *; intuition auto.
Qed.

Lemma invoke_stores_nil s m : only_nil_stores (sqlite_client.invoke s m).
Proof.
  destruct m; simpl;
    repeat (match goal with
            | |- _ /\ _ => split
            | |- forall _ : option _, _ => intros [?|]
            | |- forall _, _ => intros ?
            | |- _ = _ => reflexivity
            | |- True => exact I
            end; simpl).
Qed.

Lemma invoke_all_stores_nil s ms : only_nil_stores (sqlite_client.invoke_all s ms).
Proof.
  induction ms as [|m ms IH]; simpl; [exact I|].
  apply only_nil_stores_bind; [apply invoke_stores_nil|].
  intros a. apply only_nil_stores_bind; [exact IH|]. intros l. exact I.
Qed.

Lemma schedule_stores_nil {A} s i (cfg : config A) :
  (forall j t, threads cfg !! j = Some t -> thread_stores_nil t) ->
  (forall j t, threads (schedule env i cfg) !! j = Some t -> thread_stores_nil t) /\
  (db_at (world (schedule env i cfg)) s = db_at (world cfg) s \/
   db_at (world (schedule env i cfg)) s = None).
Proof.
  intros Hall. unfold schedule.
  destruct (threads cfg !! i) as [t|] eqn:Hi; [|split; [exact Hall|by left]].
  destruct (advance env t (world cfg)) as [[t' w']|] eqn:Ha; [|split; [exact Hall|by left]].
  pose proof (Hall i t Hi) as Hok.
  assert (H : thread_stores_nil t' /\ (db_at w' s = db_at (world cfg) s \/ db_at w' s = None)).
  { destruct t as [[a|msg|R a k]|R c k]; simpl in Ha; try discriminate.
    - destruct a; simpl in Ha, Hok; try contradiction.
      + injection Ha as <- <-. split; [exact Hok|by left].
      + destruct (mysqls (world cfg) !! m) as [o|]; injection Ha as <- <-;
          (split; [simpl; auto|by left]).
      + destruct (sqlites (world cfg) !! s0) as [o|]; injection Ha as <- <-;
          (split; [simpl; auto|by left]).
      + destruct Hok as [-> Hk].
        destruct (sqlites (world cfg) !! s0) as [o|] eqn:Ho; injection Ha as <- <-;
          (split; [simpl; auto|]); [|by left].
        unfold db_at. simpl. destruct (decide (s0 = s)) as [->|Hne].
        * right. by rewrite lookup_insert_eq.
        * left. by rewrite lookup_insert_ne.
      + destruct (sqlites (world cfg) !! s0) as [o|] eqn:Ho.
        * destruct (mu o); [discriminate|]. injection Ha as <- <-. split; [exact Hok|].
          left. unfold db_at. simpl. destruct (decide (s0 = s)) as [->|Hne].
          -- by rewrite lookup_insert_eq, Ho.
          -- by rewrite lookup_insert_ne.
        * injection Ha as <- <-. split; [exact I|by left].
      + destruct (sqlites (world cfg) !! s0) as [o|] eqn:Ho.
        * destruct (mu o); injection Ha as <- <-; (split; [simpl; auto|]); [|by left].
          left. unfold db_at. simpl. destruct (decide (s0 = s)) as [->|Hne].
          -- by rewrite lookup_insert_eq, Ho.
          -- by rewrite lookup_insert_ne.
        * injection Ha as <- <-. split; [exact I|by left].
    - injection Ha as <- <-. split; [apply Hok|by left]. }
  destruct H as [Ht' Hdb]. split; [|exact Hdb].
  intros j tj Hj. simpl in Hj. destruct (decide (j = i)) as [->|Hne].
  - rewrite list_lookup_insert_eq in Hj by (eapply lookup_lt_Some; exact Hi).
    by injection Hj as <-.
  - rewrite list_lookup_insert_ne in Hj by congruence. by apply (Hall j).
Qed.

Lemma exec_stores_nil {A} s sched : forall cfg : config A,
  (forall j t, threads cfg !! j = Some t -> thread_stores_nil t) ->
  (forall j t, threads (exec env sched cfg) !! j = Some t -> thread_stores_nil t) /\
  (db_at (world (exec env sched cfg)) s = db_at (world cfg) s \/
   db_at (world (exec env sched cfg)) s = None).
Proof.
  induction sched as [|i sched IH]; intros cfg Hall; [split; [exact Hall|by left]|].
  rewrite exec_cons. destruct (schedule_stores_nil s i cfg Hall) as [Hall1 Hdb1].
  destruct (IH _ Hall1) as [Hall2 Hdb2]. split; [exact Hall2|].
  destruct Hdb2 as [->| ->]; [exact Hdb1|by right].
Qed.

(** X15.  Under concurrent calls too the connection of a SQLite handle only
    ever changes to nil: at any moment it is the one the goroutines started
    with, or nil, and once it is nil it stays nil however the goroutines go
    on. *)
Theorem sqlite_connection_only_closes s w clients sched sched' :
  let cfg := exec env sched (spawn s clients w) in
  let cfg' := exec env (sched ++ sched') (spawn s clients w) in
  (db_at (world cfg) s = db_at w s \/ db_at (world cfg) s = None) /\
  (db_at (world cfg) s = None -> db_at (world cfg') s = None).
Proof.
  intros cfg cfg'.
  assert (H0 : forall j t, threads (spawn s clients w) !! j = Some t -> thread_stores_nil t).
  { intros j t Hj. simpl in Hj. rewrite list_lookup_fmap in Hj.
    destruct (clients !! j) as [ms|]; [|discriminate]. injection Hj as <-.
    simpl. apply invoke_all_stores_nil. }
  destruct (exec_stores_nil s sched _ H0) as [H1 Hdb1]. fold cfg in H1, Hdb1.
  split; [exact Hdb1|]. intros Hnil. unfold cfg'. rewrite exec_app. fold cfg.
  destruct (exec_stores_nil s sched' cfg H1) as [_ [->|Hdb2]]; assumption.
Qed.

End Goroutines.

(** ** More of the logger *)

Section LoggerCalls.

Variable os_MkdirAll : list logger.os_event -> string -> Z -> option error.
Variable filepath_Dir : string -> string.

Lemma sinks_cores_of cfg threshold options lvl :
  zap.sinks (zap.Sugar (zap.New (logger.cores_of cfg threshold) options)) lvl =
  if Z.leb threshold lvl then logger_calls.sinks_of cfg else [].
Proof.
  unfold zap.sinks, logger.cores_of, logger_calls.sinks_of. simpl.
  destruct (String.eqb (logger.Filename cfg) ""), (logger.Console cfg); simpl;
    unfold zapcore.Enabled; destruct (Z.leb threshold lvl); reflexivity.
Qed.

Lemma ws_cores_of cfg threshold :
  map zapcore.ws (logger.cores_of cfg threshold) = logger_calls.sinks_of cfg.
Proof.
  unfold logger.cores_of, logger_calls.sinks_of.
  destruct (String.eqb (logger.Filename cfg) ""), (logger.Console cfg); reflexivity.
Qed.

(** The logger [Init] installs when it succeeds. *)
Lemma Init_installs cfg st st' :
  logger.Init os_MkdirAll filepath_Dir cfg st = (None, st') ->
  logger.globalLogger st' =
  Some (zap.Sugar (zap.New (logger.cores_of cfg (logger.mapLogLevel (logger.Level cfg)))
                     [zap.AddCaller; zap.AddCallerSkip 1])).
Proof.
  rewrite Init_run. simpl. destruct (String.eqb (logger.Filename cfg) "").
  - intros H. by injection H as <-.
  - destruct (os_MkdirAll _ _ _); [discriminate|]. intros H. by injection H as <-.
Qed.

(** X16.  When [Init] succeeds, all cores of the new logger have the one
    threshold that [mapLogLevel] gives for the configured level, and their
    sinks are the rotating file when a file name is set and standard output
    when the console is on, in this order: a record reaches every sink when
    its level is at or above the threshold, and none below. *)
Theorem Init_thresholds cfg st st' :
  logger.Init os_MkdirAll filepath_Dir cfg st = (None, st') ->
  exists l,
    logger.globalLogger st' = Some l /\
    Forall (fun c => zapcore.enab c = logger.mapLogLevel (logger.Level cfg))
      (zap.core (zap.Desugar l)) /\
    map zapcore.ws (zap.core (zap.Desugar l)) = logger_calls.sinks_of cfg /\
    forall lvl,
      zap.sinks l lvl =
      if Z.leb (logger.mapLogLevel (logger.Level cfg)) lvl
      then logger_calls.sinks_of cfg else [].
Proof.
  intros H. eexists. split; [exact (Init_installs _ _ _ H)|]. split; [|split].
  - simpl. unfold logger.cores_of.
    destruct (String.eqb (logger.Filename cfg) ""), (logger.Console cfg);
      repeat constructor.
  - apply ws_cores_of.
  - intros lvl. apply sinks_cores_of.
Qed.


Lemma invoke_forward c p :
  logger_calls.invoke os_MkdirAll filepath_Dir c p =
  logger_calls.forward os_MkdirAll filepath_Dir (logger_calls.level_of c)
    (logger_calls.template_of c) (logger_calls.args_of c) p.
Proof. by destruct c. Qed.


Lemma Logger_unset st :
  logger.globalLogger st = None ->
  logger.Logger os_MkdirAll filepath_Dir st =
  let dir := filepath_Dir "./logs/app.log" in
  let l := zap.New [logger.fileCore logger.default_config zapcore.InfoLevel;
                    logger.consoleCore zapcore.InfoLevel]
             [zap.AddCaller; zap.AddCallerSkip 1] in
  match os_MkdirAll (logger.effects st) dir 493 with
  | Some e => (None, logger.record (logger.MkdirAll dir 493 (Some e)) st)
  | None =>
      (Some (zap.Sugar l),
       {| logger.globalLogger := Some (zap.Sugar l);
          logger.effects :=
            (logger.effects st ++ [logger.MkdirAll dir 493 None; logger.Sync l])%list |})
  end.
Proof.
  intros Hg. unfold logger.Logger. rewrite Hg, Init_run. simpl.
  destruct (os_MkdirAll _ _ _); reflexivity.
Qed.

(** X18.  [Logger] with no global logger yet sets one up from the built-in
    configuration: it creates the directory of "./logs/app.log"; if that
    fails it returns nil and the global logger stays unset, so that the next
    call tries again; otherwise it installs and returns a logger with two
    cores at [InfoLevel], the rotating file "./logs/app.log" (100 MB, 7
    days, no backup limit, no compression) and standard output. *)
Theorem Logger_first_use st :
  logger.globalLogger st = None ->
  let dir := filepath_Dir "./logs/app.log" in
  match logger.Logger os_MkdirAll filepath_Dir st with
  | (None, st') =>
      (exists e, os_MkdirAll (logger.effects st) dir 493 = Some e /\
         logger.effects st' = (logger.effects st ++ [logger.MkdirAll dir 493 (Some e)])%list) /\
      logger.globalLogger st' = None
  | (Some l, st') =>
      os_MkdirAll (logger.effects st) dir 493 = None /\
      logger.globalLogger st' = Some l /\
      zap.core (zap.Desugar l) =
        [zapcore.NewCore logger.getJSONEncoder
           (zapcore.AddSync
              {| zapcore.Filename := "./logs/app.log"; zapcore.MaxSize := 100;
                 zapcore.MaxBackups := 0; zapcore.MaxAge := 7;
                 zapcore.Compress := false |})
           zapcore.InfoLevel;
         zapcore.NewCore logger.getConsoleEncoder zapcore.Lock_Stdout zapcore.InfoLevel]
  end.
Proof.
  intros Hg dir. rewrite (Logger_unset st Hg). simpl. fold dir.
  destruct (os_MkdirAll (logger.effects st) dir 493) as [e|] eqn:Hm.
  - simpl. split; [eauto|exact Hg].
  - repeat split.
Qed.

(** X19.  Once [Logger] has returned a logger, every later [Logger] returns
    the same one and changes nothing: the logger is set up at most once. *)
Theorem Logger_stable st l st' :
  logger.Logger os_MkdirAll filepath_Dir st = (Some l, st') ->
  logger.Logger os_MkdirAll filepath_Dir st' = (Some l, st').
Proof.
  intros H.
  assert (Hg : logger.globalLogger st' = Some l).
  { destruct (logger.globalLogger st) as [l0|] eqn:Hg.
    - unfold logger.Logger in H. rewrite Hg in H. injection H as <- <-. exact Hg.
    - rewrite (Logger_unset st Hg) in H. simpl in H.
      destruct (os_MkdirAll _ _ _); [discriminate|]. by injection H as <- <-. }
  unfold logger.Logger. by rewrite Hg.
Qed.

(** X20.  The first logging call of a process that has not called [Init],
    when the directory can be created: the built-in logger is installed and
    the record goes to the file and to standard output if the function is
    [Info] or above, and nowhere if it is [Debug] or [Debugf]. *)
Theorem first_logging_call st c out :
  logger.globalLogger st = None ->
  os_MkdirAll (logger.effects st) (filepath_Dir "./logs/app.log") 493 = None ->
  exists st',
    logger.Logger os_MkdirAll filepath_Dir st = (logger.globalLogger st', st') /\
    logger.globalLogger st' <> None /\
    snd (logger_calls.invoke os_MkdirAll filepath_Dir c
           {| logger_calls.state := st; logger_calls.output := out |}) =
    {| logger_calls.state := st';
       logger_calls.output :=
         (out ++
          match c with
          | logger_calls.cDebug _ | logger_calls.cDebugf _ _ => []
          | _ =>
              [logger_calls.record_of c
                 (zapcore.AddSync
                    {| zapcore.Filename := "./logs/app.log"; zapcore.MaxSize := 100;
                       zapcore.MaxBackups := 0; zapcore.MaxAge := 7;
                       zapcore.Compress := false |});
               logger_calls.record_of c zapcore.Lock_Stdout]
          end)%list |}.
Proof.
  intros Hg Hm. eexists {| logger.globalLogger := _; logger.effects := _ |}.
  split; [|split].
  - rewrite (Logger_unset st Hg). simpl. rewrite Hm. reflexivity.
  - discriminate.
  - rewrite invoke_forward. unfold logger_calls.forward.
    cbn [logger_calls.state]. rewrite (Logger_unset st Hg). simpl. rewrite Hm.
    by destruct c.
Qed.

(** X21.  A process that has not called [Init] and cannot create the log
    directory: each of the twelve logging functions, and [With], panics on
    the nil logger; nothing is written, the global logger stays unset, and
    only the failed [MkdirAll] is recorded. *)
Theorem logging_without_logger st e c fields out :
  logger.globalLogger st = None ->
  os_MkdirAll (logger.effects st) (filepath_Dir "./logs/app.log") 493 = Some e ->
  let p := {| logger_calls.state := st; logger_calls.output := out |} in
  let p' :=
    {| logger_calls.state :=
         {| logger.globalLogger := None;
            logger.effects :=
              (logger.effects st ++
               [logger.MkdirAll (filepath_Dir "./logs/app.log") 493 (Some e)])%list |};
       logger_calls.output := out |} in
  logger_calls.invoke os_MkdirAll filepath_Dir c p
  = (logger_calls.Panics logger_calls.NilPointer, p') /\
  logger_calls.With os_MkdirAll filepath_Dir fields p = (inr logger_calls.NilPointer, p').
Proof.
  intros Hg Hm p p'. split.
  - rewrite invoke_forward. unfold logger_calls.forward, p.
    cbn [logger_calls.state]. rewrite (Logger_unset st Hg). simpl. rewrite Hm.
    unfold p', logger.record. by rewrite Hg.
  - unfold logger_calls.With, p. cbn [logger_calls.state].
    rewrite (Logger_unset st Hg). simpl. rewrite Hm.
    unfold p', logger.record. by rewrite Hg.
Qed.

(** X22.  What [Init] does to the file system: with no file name, nothing,
    and it cannot fail; with one, a single [MkdirAll] of the directory of
    the file with mode 0755, before anything else.  On success the new
    logger is synced once, on failure not at all. *)
Theorem Init_effects cfg st :
  let dir := filepath_Dir (logger.Filename cfg) in
  match logger.Init os_MkdirAll filepath_Dir cfg st with
  | (Some e, st') =>
      logger.Filename cfg <> "" /\
      logger.effects st' = (logger.effects st ++ [logger.MkdirAll dir 493 (Some e)])%list
  | (None, st') =>
      exists l,
        logger.globalLogger st' = Some l /\
        logger.effects st' =
        (logger.effects st ++
         (if String.eqb (logger.Filename cfg) "" then [] else [logger.MkdirAll dir 493 None]) ++
         [logger.Sync (zap.Desugar l)])%list
  end.
Proof.
  intros dir. rewrite Init_run. simpl. fold dir.
  destruct (String.eqb (logger.Filename cfg) "") eqn:Hf.
  - eexists. split; reflexivity.
  - apply String.eqb_neq in Hf.
    destruct (os_MkdirAll (logger.effects st) dir 493) as [e|]; simpl.
    + by split.
    + eexists. split; reflexivity.
Qed.

End LoggerCalls.

(** ** The additional properties on concrete inputs *)

(** An [INSERT] through [Exec], and a failing one through [ExecContext]. *)
Lemma sqlite_open_calls_witness :
  run (sql up) (sqlite.Exec 0%nat "INSERT INTO sessions VALUES (?)" [VInt 7]) one_sqlite
  = Returned
      (Some {| LastInsertId := (0, None); RowsAffected := (1, None) |}, None)
      (log (Ev (DB_ExecContext 0%nat Background "INSERT INTO sessions VALUES (?)" [VInt 7])
              (ok {| LastInsertId := (0, None); RowsAffected := (1, None) |}))
         one_sqlite) /\
  run (sql read_only)
    (sqlite.ExecContext 0%nat (WithCancel 3) "DELETE FROM sessions" []) one_sqlite
  = Returned
      (None, Some (errorString "attempt to write a readonly database"))
      (log (Ev (DB_ExecContext 0%nat (WithCancel 3) "DELETE FROM sessions" [])
              (fail (errorString "attempt to write a readonly database")))
         one_sqlite).
Proof.
  split.
  - exact (proj1 (proj2 (sqlite_open_calls (sql up) one_sqlite 0%nat _ 0%nat
                           eq_refl eq_refl eq_refl))
             "INSERT INTO sessions VALUES (?)" [VInt 7]).
  - exact (proj1 (sqlite_open_calls (sql read_only) one_sqlite 0%nat _ 0%nat
                    eq_refl eq_refl eq_refl)
             (WithCancel 3) "DELETE FROM sessions" []).
Defined.

(** [Close] twice on the open handle of [one_sqlite]. *)
Lemma sqlite_Close_once_witness :
  run (sql up) (sqlite.Close 0%nat) one_sqlite = Returned None closed_sqlite /\
  run (sql up) (sqlite.Close 0%nat) closed_sqlite = Returned None closed_sqlite.
Proof.
  exact (sqlite_Close_once (sql up) one_sqlite 0%nat _ 0%nat eq_refl eq_refl eq_refl).
Defined.



(** [Query] against a server that is up, [Prepare] on a closed pool. *)
Lemma mysql_value_or_error_witness :
  run (sql up) (mysql.Query 0%nat "SELECT 1" []) one_mysql
  = Returned (Some (mkRows 1), None)
      (log (Ev (DB_Query 0%nat "SELECT 1" []) (ok (mkRows 1))) one_mysql) /\
  run (sql up) (mysql.Prepare 0%nat "SELECT ?") closed_mysql
  = Returned
      (None, Some (wrapError "error prepare: sql: database is closed"
                     (errorString "sql: database is closed")))
      (log (Ev (DB_Prepare 0%nat "SELECT ?") (fail (errorString "sql: database is closed")))
         closed_mysql).
Proof.
  split.
  - exact (proj1 (mysql_value_or_error (sql up) one_mysql 0%nat 0%nat eq_refl) "SELECT 1" []).
  - exact (proj2 (proj2 (mysql_value_or_error (sql up) closed_mysql 0%nat 0%nat eq_refl))
             "SELECT ?").
Defined.

(** [Ping] against a host that does not answer. *)
Lemma mysql_Ping_QueryRow_witness :
  run (sql unreachable) (mysql.Ping 0%nat (WithCancel 1)) one_mysql
  = Returned (Some (errorString "dial tcp 10.0.0.1:3306: connect: no route to host"))
      (log (Ev (DB_PingContext 0%nat (WithCancel 1))
              (Some (errorString "dial tcp 10.0.0.1:3306: connect: no route to host")))
         one_mysql) /\
  run (sql up) (mysql.QueryRow 0%nat "SELECT 1" []) one_mysql
  = Returned (Some (mkRow 1)) (log (Ev (DB_QueryRow 0%nat "SELECT 1" []) (mkRow 1)) one_mysql).
Proof.
  split.
  - exact (proj1 (mysql_Ping_QueryRow (sql unreachable) one_mysql 0%nat 0%nat eq_refl)
             (WithCancel 1)).
  - exact (proj2 (mysql_Ping_QueryRow (sql up) one_mysql 0%nat 0%nat eq_refl) "SELECT 1" []).
Defined.




(** [NewMySqlDB] with a host that does not answer. *)
Lemma NewMySqlDB_failure_witness :
  let err :=
    wrapError "error verify connect: dial tcp 10.0.0.1:3306: connect: no route to host"
      (errorString "dial tcp 10.0.0.1:3306: connect: no route to host") in
  let w' :=
    {| trace :=
         [Ev (sql_Open "mysql"
                "epdg:secret@tcp(10.0.0.1:3306)/epdg?charset=utf8mb4&parseTime=True&loc=Local")
             (ok 0%nat);
          Ev (SetMaxOpenConns 0%nat 25) tt;
          Ev (SetMaxIdleConns 0%nat 10) tt;
          Ev (SetConnMaxLifetime 0%nat 3600000000000) tt;
          Ev (DB_Ping 0%nat)
            (Some (errorString "dial tcp 10.0.0.1:3306: connect: no route to host"))];
       mysqls := ∅;
       sqlites := ∅ |} in
  run (sql unreachable) (mysql.NewMySqlDB mysql.unreachable_cfg) empty_world
  = Returned (None, Some err) w' /\
  mysqls w' = mysqls empty_world /\ sqlites w' = sqlites empty_world.
Proof.
  intros err w'.
  assert (H : run (sql unreachable) (mysql.NewMySqlDB mysql.unreachable_cfg) empty_world
              = Returned (None, Some err) w') by (vm_compute; reflexivity).
  split; [exact H|].
  destruct (NewMySqlDB_failure (sql unreachable) mysql.unreachable_cfg empty_world
              None err w' H) as (_ & H1 & H2 & _).
  split; [exact H1 | exact H2].
Defined.

(** [NewSQLiteDB] on a read-only file: [Ping] answers, the PRAGMA fails. *)
Lemma NewSQLiteDB_failure_witness :
  let err :=
    wrapError "failed to enable foreign keys: attempt to write a readonly database"
      (errorString "attempt to write a readonly database") in
  let w' :=
    {| trace :=
         [Ev (sql_Open "sqlite" "/srv/epdg.db") (ok 0%nat);
          Ev (SetMaxOpenConns 0%nat 1) tt;
          Ev (SetMaxIdleConns 0%nat 1) tt;
          Ev (SetConnMaxLifetime 0%nat 3600000000000) tt;
          Ev (DB_Ping 0%nat) None;
          Ev (DB_Exec 0%nat "PRAGMA foreign_keys = ON;" [])
            (fail (errorString "attempt to write a readonly database"))];
       mysqls := ∅;
       sqlites := ∅ |} in
  run (sql read_only) (sqlite.NewSQLiteDB "/srv/epdg.db") empty_world
  = Returned (None, Some err) w' /\
  mysqls w' = mysqls empty_world /\ sqlites w' = sqlites empty_world.
Proof.
  intros err w'.
  assert (H : run (sql read_only) (sqlite.NewSQLiteDB "/srv/epdg.db") empty_world
              = Returned (None, Some err) w') by (vm_compute; reflexivity).
  split; [exact H|].
  destruct (NewSQLiteDB_failure (sql read_only) "/srv/epdg.db" empty_world None err w' H)
    as (_ & H1 & H2 & _).
  split; [exact H1 | exact H2].
Defined.



(** [Init] at "warn": info records reach no sink, warnings reach both. *)
Lemma Init_thresholds_witness :
  exists st' l,
    logger.Init logger_calls.mkdir_ok logger_calls.dir_of logger_calls.warn_config
      logger_calls.fresh = (None, st') /\
    logger.globalLogger st' = Some l /\
    zap.sinks l zapcore.InfoLevel = [] /\
    zap.sinks l zapcore.WarnLevel =
      [zapcore.AddSync
         {| zapcore.Filename := "/var/log/epdg/epdg.log"; zapcore.MaxSize := 50;
            zapcore.MaxBackups := 5; zapcore.MaxAge := 30; zapcore.Compress := true |};
       zapcore.Lock_Stdout].
Proof.
  exists (snd (logger.Init logger_calls.mkdir_ok logger_calls.dir_of logger_calls.warn_config
                 logger_calls.fresh)).
  destruct (Init_thresholds logger_calls.mkdir_ok logger_calls.dir_of logger_calls.warn_config
              logger_calls.fresh _ eq_refl) as (l & Hl & _ & _ & Hs).
  exists l. split; [reflexivity|]. split; [exact Hl|].
  rewrite !Hs. split; reflexivity.
Defined.


(** [Logger] in a fresh process, with and without a writable directory. *)
Lemma Logger_first_use_witness :
  (exists l st',
      logger.Logger logger_calls.mkdir_ok logger_calls.dir_of logger_calls.fresh
      = (Some l, st') /\
      logger.globalLogger st' = Some l /\
      length (zap.core (zap.Desugar l)) = 2%nat) /\
  (exists st',
      logger.Logger logger_calls.mkdir_denied logger_calls.dir_of logger_calls.fresh
      = (None, st') /\
      logger.globalLogger st' = None).
Proof.
  split.
  - pose proof (Logger_first_use logger_calls.mkdir_ok logger_calls.dir_of
                  logger_calls.fresh eq_refl) as H.
    cbv zeta in H.
    destruct (logger.Logger logger_calls.mkdir_ok logger_calls.dir_of logger_calls.fresh)
      as [[l|] st'] eqn:E; [|vm_compute in E; discriminate E].
    destruct H as (_ & Hl & Hc). exists l, st'. split; [reflexivity|]. split; [exact Hl|].
    by rewrite Hc.
  - pose proof (Logger_first_use logger_calls.mkdir_denied logger_calls.dir_of
                  logger_calls.fresh eq_refl) as H.
    cbv zeta in H.
    destruct (logger.Logger logger_calls.mkdir_denied logger_calls.dir_of logger_calls.fresh)
      as [[l|] st'] eqn:E; [vm_compute in E; discriminate E|].
    destruct H as (_ & Hg). exists st'. split; [reflexivity|exact Hg].
Defined.

(** [Logger] twice in a fresh process. *)
Lemma Logger_stable_witness :
  let r := logger.Logger logger_calls.mkdir_ok logger_calls.dir_of logger_calls.fresh in
  fst r <> None /\
  logger.Logger logger_calls.mkdir_ok logger_calls.dir_of (snd r) = r.
Proof.
  intros r. split; [vm_compute; discriminate|].
  destruct r as [[l|] st'] eqn:E; [|vm_compute in E; discriminate E].
  exact (Logger_stable logger_calls.mkdir_ok logger_calls.dir_of logger_calls.fresh l st' E).
Defined.

(** [Debug] and [Warn] as the first logging calls of a process. *)
Lemma first_logging_call_witness :
  let p := {| logger_calls.state := logger_calls.fresh; logger_calls.output := [] |} in
  logger_calls.output
    (snd (logger_calls.Debug logger_calls.mkdir_ok logger_calls.dir_of [OString "tick"] p))
  = [] /\
  length
    (logger_calls.output
       (snd (logger_calls.Warn logger_calls.mkdir_ok logger_calls.dir_of [OString "late"] p)))
  = 2%nat.
Proof.
  intros p.
  destruct (first_logging_call logger_calls.mkdir_ok logger_calls.dir_of logger_calls.fresh
              (logger_calls.cDebug [OString "tick"]) [] eq_refl eq_refl) as (st1 & _ & _ & H1).
  destruct (first_logging_call logger_calls.mkdir_ok logger_calls.dir_of logger_calls.fresh
              (logger_calls.cWarn [OString "late"]) [] eq_refl eq_refl) as (st2 & _ & _ & H2).
  split.
  - exact (f_equal logger_calls.output H1).
  - exact (f_equal (fun q => length (logger_calls.output q)) H2).
Defined.

(** [Info] and [With] in a process that cannot create "logs". *)
Lemma logging_without_logger_witness :
  let p := {| logger_calls.state := logger_calls.fresh; logger_calls.output := [] |} in
  let p' :=
    {| logger_calls.state :=
         {| logger.globalLogger := None;
            logger.effects :=
              [logger.MkdirAll "logs" 493
                 (Some (errorString "mkdir logs: permission denied"))] |};
       logger_calls.output := [] |} in
  logger_calls.Info logger_calls.mkdir_denied logger_calls.dir_of [OString "started"] p
  = (logger_calls.Panics logger_calls.NilPointer, p') /\
  logger_calls.With logger_calls.mkdir_denied logger_calls.dir_of [OString "session"; OInt 7] p
  = (inr logger_calls.NilPointer, p').
Proof.
  intros p p'.
  exact (logging_without_logger logger_calls.mkdir_denied logger_calls.dir_of
           logger_calls.fresh (errorString "mkdir logs: permission denied")
           (logger_calls.cInfo [OString "started"]) [OString "session"; OInt 7] []
           eq_refl eq_refl).
Defined.
